(** * Webflow RSS feed generator: a shallow embedding of
      [webflow_rss_generator.js] and the properties of its specification.

    The JavaScript program is a single request handler: it fetches the items
    of a Webflow collection, renders each one as an RSS [<item>] and answers
    with the feed document, or with a fixed error body when anything throws.

    Conventions of the embedding.
    - A JavaScript string is a [string]; one [ascii] stands for one UTF-16
      code unit (the development covers the code units below 256), so
      [String.length] is the [.length] of the source.
    - A JavaScript value is a [value]: the values [JSON.parse] can build,
      plus [undefined], which reading a missing property yields.  Numbers
      are the integers (a [Z]); fractional numbers, [NaN] and the
      exponent notation of large numbers are outside the model.
    - An object is the list of its own properties, each name once, in the
      order [Object.values] enumerates them.
    - A call that may throw returns a [completion]. *)

From Stdlib Require Import ZArith List String Ascii Bool Lia DecimalString.
Import ListNotations.

Local Open Scope list_scope.
Local Open Scope string_scope.

(* ------------------------------------------------------------------ *)
(** ** Strings *)

Module JsString.

(** The characters the program names. *)
Definition nl : ascii := "010"%char.
Definition dquote : ascii := "034"%char.
Definition squote : ascii := "039"%char.
Definition amp : ascii := "&"%char.
Definition lt : ascii := "<"%char.
Definition gt : ascii := ">"%char.

Definition str1 (c : ascii) : string := String c EmptyString.

(** [String.prototype.startsWith], used to find a literal pattern. *)
Fixpoint startsWith (pat s : string) : bool :=
  match pat, s with
  | EmptyString, _ => true
  | String _ _, EmptyString => false
  | String a pat', String b s' => Ascii.eqb a b && startsWith pat' s'
  end.

(** [s.includes(sub)]: [sub] occurs somewhere in [s]. *)
Fixpoint includes (sub s : string) : bool :=
  startsWith sub s
  || match s with
     | EmptyString => false
     | String _ s' => includes sub s'
     end.

(** [s.replace(/pat/g, rep)] for a literal, non-empty pattern [pat] and a
    replacement without [$]: the matches are taken from left to right and
    do not overlap.  [skip] counts the characters of the current match
    that are still to be consumed. *)
Fixpoint replace_from (pat rep : string) (skip : nat) (s : string) : string :=
  match s with
  | EmptyString => EmptyString
  | String c s' =>
      match skip with
      | S k => replace_from pat rep k s'
      | O =>
          if startsWith pat s
          then rep ++ replace_from pat rep (String.length pat - 1) s'
          else String c (replace_from pat rep 0 s')
      end
  end.

Definition replaceAll (pat rep s : string) : string := replace_from pat rep 0 s.

(** [s.split(sep)] for a one-character separator: the pieces between the
    occurrences of [sep], empty pieces included. *)
Fixpoint split (sep : ascii) (s : string) : list string :=
  match s with
  | EmptyString => [EmptyString]
  | String c s' =>
      if Ascii.eqb c sep then EmptyString :: split sep s'
      else match split sep s' with
           | [] => [str1 c]
           | p :: ps => String c p :: ps
           end
  end.

(** The character [c] occurs in [s]. *)
Fixpoint has_char (c : ascii) (s : string) : bool :=
  match s with
  | EmptyString => false
  | String a s' => Ascii.eqb a c || has_char c s'
  end.

(** The number of (possibly overlapping) occurrences of [sub] in [s]. *)
Fixpoint occurrences (sub s : string) : nat :=
  match s with
  | EmptyString => 0
  | String _ s' => (if startsWith sub s then 1 else 0) + occurrences sub s'
  end.

End JsString.
Import JsString.

(* ------------------------------------------------------------------ *)
(** ** Values and completions *)

#[warnings="-register-all"]
Inductive value : Type :=
| VUndefined
| VNull
| VBool (b : bool)
| VNum (n : Z)
| VStr (s : string)
| VArr (xs : list value)
| VObj (ps : list (string * value)).

Inductive exn : Type :=
| TypeError                 (* a built-in operation applied to the wrong kind of value *)
| SyntaxError               (* [response.json()] on a body that is not JSON *)
| NetworkError              (* [fetch] rejected *)
| Error (message : string). (* [new Error(message)] *)

Inductive completion (A : Type) : Type :=
| Normal (a : A)
| Throw (e : exn).
Arguments Normal {A} a.
Arguments Throw {A} e.

Definition bind {A B : Type} (c : completion A) (k : A -> completion B)
  : completion B :=
  match c with
  | Normal a => k a
  | Throw e => Throw e
  end.

Notation "x <- c ;; k" := (bind c (fun x => k))
  (at level 61, c at next level, right associativity).

Definition returns {A : Type} (c : completion A) : bool :=
  match c with Normal _ => true | Throw _ => false end.

(** [ToBoolean]: what [!v], [v || w] and [v ? a : b] test. *)
Definition truthy (v : value) : bool :=
  match v with
  | VUndefined | VNull => false
  | VBool b => b
  | VNum n => negb (n =? 0)%Z
  | VStr s => negb (String.eqb s EmptyString)
  | VArr _ | VObj _ => true
  end.

(** [a || b]. *)
Definition or_else (a b : value) : value := if truthy a then a else b.

Fixpoint lookup (k : string) (ps : list (string * value)) : option value :=
  match ps with
  | [] => None
  | (k', v) :: ps' => if String.eqb k k' then Some v else lookup k ps'
  end.

(** A property name that is an array index: the canonical decimal numeral
    of a natural number. *)
Definition array_index (k : string) : option nat :=
  match NilEmpty.uint_of_string k with
  | Some u =>
      let n := Nat.of_uint u in
      if String.eqb (NilZero.string_of_uint (Nat.to_uint n)) k
      then Some n else None
  | None => None
  end.

(** [v[k]] for a value that is neither [null] nor [undefined].  None of the
    names the program reads is defined on a prototype, so a name that is
    not an own property reads as [undefined]. *)
Definition get (v : value) (k : string) : value :=
  match v with
  | VObj ps => match lookup k ps with Some x => x | None => VUndefined end
  | VArr xs =>
      if String.eqb k "length" then VNum (Z.of_nat (List.length xs))
      else match array_index k with
           | Some i => nth i xs VUndefined
           | None => VUndefined
           end
  | VStr s =>
      if String.eqb k "length" then VNum (Z.of_nat (String.length s))
      else match array_index k with
           | Some i =>
               match String.get i s with
               | Some c => VStr (str1 c)
               | None => VUndefined
               end
           | None => VUndefined
           end
  | _ => VUndefined
  end.

(** [v.k]: throws on [null] and [undefined]. *)
Definition get_dot (v : value) (k : string) : completion value :=
  match v with
  | VUndefined | VNull => Throw TypeError
  | _ => Normal (get v k)
  end.

(** [v?.k]: [undefined] on [null] and [undefined]. *)
Definition get_opt (v : value) (k : string) : value :=
  match v with
  | VUndefined | VNull => VUndefined
  | _ => get v k
  end.

(** [Object.values(v)] for a value that is neither [null] nor [undefined]. *)
Definition Object_values (v : value) : list value :=
  match v with
  | VObj ps => map snd ps
  | VArr xs => xs
  | VStr s => map (fun c => VStr (str1 c)) (list_ascii_of_string s)
  | _ => []
  end.

Definition num_to_string (n : Z) : string :=
  NilZero.string_of_int (Z.to_int n).

(** The abstract operation [ToString], which a template literal applies to
    each interpolated value.  An object built by [JSON.parse] has no
    callable property of its own: when it carries a field named [toString]
    that field hides [Object.prototype.toString] and the conversion throws;
    otherwise it yields ["[object Object]"].  An array is joined with
    commas, [null] and [undefined] elements giving the empty string. *)
Fixpoint ToString (v : value) : completion string :=
  match v with
  | VUndefined => Normal "undefined"
  | VNull => Normal "null"
  | VBool b => Normal (if b then "true" else "false")
  | VNum n => Normal (num_to_string n)
  | VStr s => Normal s
  | VArr xs =>
      (fix join (l : list value) : completion string :=
         match l with
         | [] => Normal EmptyString
         | x :: rest =>
             s <- match x with
                  | VUndefined | VNull => Normal EmptyString
                  | _ => ToString x
                  end ;;
             match rest with
             | [] => Normal s
             | _ :: _ => r <- join rest ;; Normal (s ++ "," ++ r)
             end
         end) xs
  | VObj ps =>
      match lookup "toString" ps with
      | Some _ => Throw TypeError
      | None => Normal "[object Object]"
      end
  end.

(** The method call [v.toString()]. *)
Definition call_toString (v : value) : completion string :=
  match v with
  | VUndefined | VNull => Throw TypeError
  | _ => ToString v
  end.

(* ------------------------------------------------------------------ *)
(** ** The XML escaper *)

(** The chain of five [replace] calls of [escapeXml]. *)
Definition escape_chain (s : string) : string :=
  replaceAll (str1 squote) "&#39;"
    (replaceAll (str1 dquote) "&quot;"
      (replaceAll ">" "&gt;"
        (replaceAll "<" "&lt;"
          (replaceAll "&" "&amp;" s)))).

Definition escapeXml (str : value) : completion string :=
  if negb (truthy str) then Normal EmptyString
  else s <- call_toString str ;; Normal (escape_chain s).

(* ------------------------------------------------------------------ *)
(** ** The content extractor *)

Definition contentFields : list string :=
  ["content"; "body"; "post-body"; "main-content"; "rich-text"; "blog-content"].

(** The pattern of [/\n\n/g] and of [/\n/g]. *)
Definition nlnl : string := String nl (String nl EmptyString).

(** [isLikelyContent(str)]. *)
Definition isLikelyContent (str : string) : bool :=
  includes "<p>" str || includes "<h" str || includes "<div" str
  || ((20 <? List.length (split " " str))%nat
      && negb (includes "@" str) && negb (includes "http" str)).

(** [v.includes(x)] for a string [x]: a substring test on a string, a
    membership test on an array; no other value has the method. *)
Definition call_includes (v : value) (x : string) : completion bool :=
  match v with
  | VStr s => Normal (includes x s)
  | VArr xs =>
      Normal (existsb (fun e => match e with
                                | VStr t => String.eqb t x
                                | _ => false
                                end) xs)
  | _ => Throw TypeError
  end.

(** The two [replace] calls of [processRichTextContent]. *)
Definition convert_line_breaks (s : string) : string :=
  replaceAll (str1 nl) "<br>" (replaceAll nlnl "</p><p>" s).

Definition processRichTextContent (content : value) : completion value :=
  if negb (truthy content) then Normal (VStr EmptyString)
  else
    has_lt <- call_includes content "<" ;;
    has_both <- (if has_lt : bool then call_includes content ">"
                 else Normal false) ;;
    if has_both : bool then Normal content
    else match content with
         | VStr s => Normal (VStr (convert_line_breaks s))
         | _ => Throw TypeError     (* only a string has [replace] *)
         end.

(** The [for ... of contentFields] loop: the value left in [fullContent],
    which starts as the empty string. *)
Fixpoint probe (fieldData : value) (names : list string) : value :=
  match names with
  | [] => VStr EmptyString
  | fieldName :: rest =>
      if truthy (get fieldData fieldName) then get fieldData fieldName
      else probe fieldData rest
  end.

(** One call of the [forEach] callback on the accumulated [fullContent]. *)
Definition scan_step (fullContent : string) (v : value) : string :=
  match v with
  | VStr s =>
      if (100 <? String.length s)%nat && isLikelyContent s
      then fullContent ++ (s ++ nlnl)
      else fullContent
  | _ => fullContent
  end.

(** The heuristic scan.  It runs only when the loop left [fullContent]
    falsy, and the loop leaves either a truthy value or the initial empty
    string, so the accumulation starts from the empty string. *)
Definition scan (fieldData : value) : string :=
  fold_left scan_step (Object_values fieldData) EmptyString.

(** The content before [processRichTextContent] is applied. *)
Definition rawContent (fieldData : value) : value :=
  let fullContent := probe fieldData contentFields in
  if negb (truthy fullContent) then VStr (scan fieldData) else fullContent.

Definition extractFullContent (fieldData : value) : completion value :=
  if negb (truthy fieldData) then Normal (VStr EmptyString)
  else
    let fullContent := rawContent fieldData in
    if truthy fullContent then processRichTextContent fullContent
    else Normal fullContent.

(* ------------------------------------------------------------------ *)
(** ** The host: environment, clock, dates and network *)

Record request : Type := {
  req_url : string;
  req_method : string;
  req_headers : list (string * string)
}.

(** What the program reads of a [Response]: [json] is [None] when the body
    is not a JSON text. *)
Record response : Type := {
  status : Z;
  statusText : string;
  json : option value
}.

(** [response.ok]: the status is in the range 200-299. *)
Definition ok (r : response) : bool :=
  ((200 <=? status r) && (status r <=? 299))%Z.

Record Host : Type := {
  process_env : string -> option string;  (* [process.env] *)
  clock : string;                         (* [new Date().toUTCString()] *)
  utc_of_time : Z -> string;              (* [new Date(n).toUTCString()], [n] a number *)
  utc_of_text : string -> string;         (* [new Date(s).toUTCString()], [s] a string *)
  fetch : request -> completion response
}.

(** [process.env.NAME], a string or [undefined]. *)
Definition env (h : Host) (name : string) : value :=
  match process_env h name with
  | Some s => VStr s
  | None => VUndefined
  end.

(** [process.env.NAME || default]; the result is a string. *)
Definition env_or (h : Host) (name default : string) : string :=
  match or_else (env h name) (VStr default) with
  | VStr s => s
  | _ => default
  end.

Definition WEBFLOW_API_TOKEN (h : Host) : value := env h "WEBFLOW_API_TOKEN".
Definition COLLECTION_ID (h : Host) : value := env h "WEBFLOW_COLLECTION_ID".
Definition SITE_URL (h : Host) : string := env_or h "SITE_URL" "https://yoursite.com".
Definition SITE_NAME (h : Host) : string := env_or h "SITE_NAME" "Your Blog".
Definition SITE_DESCRIPTION (h : Host) : string :=
  env_or h "SITE_DESCRIPTION" "Latest blog posts".

(** [new Date(v).toUTCString()].  A string is parsed, a number is a time
    value, an object is first converted to a primitive, which for a JSON
    value is its [ToString] or a [TypeError]. *)
Definition new_Date_toUTCString (h : Host) (v : value) : completion string :=
  match v with
  | VStr s => Normal (utc_of_text h s)
  | VNum n => Normal (utc_of_time h n)
  | VBool b => Normal (utc_of_time h (if b then 1 else 0))
  | VNull => Normal (utc_of_time h 0)
  | VUndefined => Normal "Invalid Date"
  | VArr _ | VObj _ => s <- ToString v ;; Normal (utc_of_text h s)
  end.

(* ------------------------------------------------------------------ *)
(** ** The fetcher *)

Definition fetchUrl (h : Host) : completion string :=
  id <- ToString (COLLECTION_ID h) ;;
  Normal ("https://api.webflow.com/v2/collections/" ++ id ++ "/items").

Definition fetchRequest (h : Host) : completion request :=
  url <- fetchUrl h ;;
  token <- ToString (WEBFLOW_API_TOKEN h) ;;
  Normal {| req_url := url;
            req_method := "GET";
            req_headers := [("Authorization", "Bearer " ++ token);
                            ("Accept", "application/json");
                            ("Content-Type", "application/json")] |}.

Definition upstreamMessage (r : response) : string :=
  "Webflow API error: " ++ num_to_string (status r) ++ " " ++ statusText r.

Definition fetchWebflowPosts (h : Host) : completion value :=
  rq <- fetchRequest h ;;
  resp <- fetch h rq ;;
  if negb (ok resp) then Throw (Error (upstreamMessage resp))
  else
    data <- match json resp with
            | Some d => Normal d
            | None => Throw SyntaxError
            end ;;
    items <- get_dot data "items" ;;
    Normal (or_else items (VArr [])).

(* ------------------------------------------------------------------ *)
(** ** The feed renderer *)

Definition lf : string := str1 nl.
Definition q : string := str1 dquote.

(** [a || b] where [b] is evaluated only when [a] is falsy. *)
Definition or_lazy (a : value) (b : completion value) : completion value :=
  if truthy a then Normal a else b.

(** [post.fieldData?.name]. *)
Definition fieldData_opt (post : value) (name : string) : completion value :=
  fieldData <- get_dot post "fieldData" ;;
  Normal (get_opt fieldData name).

(** The template literal of one item, its holes filled with strings. *)
Definition itemTemplate
  (title postUrl postDate author description content : string) : string :=
  lf ++ "    <item>" ++
  lf ++ "      <title>" ++ title ++ "</title>" ++
  lf ++ "      <link>" ++ postUrl ++ "</link>" ++
  lf ++ "      <guid isPermaLink=" ++ q ++ "true" ++ q ++ ">" ++ postUrl ++ "</guid>" ++
  lf ++ "      <pubDate>" ++ postDate ++ "</pubDate>" ++
  lf ++ "      " ++ (if String.eqb author EmptyString then EmptyString
                     else "<author>" ++ author ++ "</author>") ++
  lf ++ "      <description><![CDATA[" ++ description ++ "]]></description>" ++
  lf ++ "      <content:encoded><![CDATA[" ++ content ++ "]]></content:encoded>" ++
  lf ++ "    </item>".

(** The callback of [posts.map]. *)
Definition renderItem (h : Host) (now : string) (post : value)
  : completion string :=
  createdOn <- get_dot post "createdOn" ;;
  postDate <- (if truthy createdOn then new_Date_toUTCString h createdOn
               else Normal now) ;;
  slug <- fieldData_opt post "slug" ;;
  slug_or_id <- or_lazy slug (get_dot post "id") ;;
  tail <- ToString slug_or_id ;;
  let postUrl := SITE_URL h ++ "/blog/" ++ tail in
  name <- fieldData_opt post "name" ;;
  name_or_title <- or_lazy name (fieldData_opt post "title") ;;
  title <- escapeXml (or_else name_or_title (VStr "Untitled Post")) ;;
  summary <- fieldData_opt post "summary" ;;
  summary_or_excerpt <- or_lazy summary (fieldData_opt post "excerpt") ;;
  description <- escapeXml (or_else summary_or_excerpt (VStr EmptyString)) ;;
  fieldData <- get_dot post "fieldData" ;;
  content <- extractFullContent fieldData ;;
  author_field <- fieldData_opt post "author" ;;
  author <- escapeXml (or_else author_field (VStr EmptyString)) ;;
  content_text <- ToString content ;;
  Normal (itemTemplate title postUrl postDate author description content_text).

(** [posts.map(f)] on the elements of an array, from left to right. *)
Fixpoint mapM {A B : Type} (f : A -> completion B) (l : list A)
  : completion (list B) :=
  match l with
  | [] => Normal []
  | x :: rest => y <- f x ;; ys <- mapM f rest ;; Normal (y :: ys)
  end.

(** The part of the document before and after [${rssItems}]. *)
Definition channelHead (h : Host) (now name description : string) : string :=
  "<?xml version=" ++ q ++ "1.0" ++ q ++ " encoding=" ++ q ++ "UTF-8" ++ q ++ "?>" ++
  lf ++ "<rss version=" ++ q ++ "2.0" ++ q ++ " " ++
  lf ++ "     xmlns:content=" ++ q ++ "http://purl.org/rss/1.0/modules/content/" ++ q ++
  lf ++ "     xmlns:atom=" ++ q ++ "http://www.w3.org/2005/Atom" ++ q ++ ">" ++
  lf ++ "  <channel>" ++
  lf ++ "    <title>" ++ name ++ "</title>" ++
  lf ++ "    <link>" ++ SITE_URL h ++ "</link>" ++
  lf ++ "    <description>" ++ description ++ "</description>" ++
  lf ++ "    <language>en-us</language>" ++
  lf ++ "    <lastBuildDate>" ++ now ++ "</lastBuildDate>" ++
  lf ++ "    <atom:link href=" ++ q ++ SITE_URL h ++ "/api/rss" ++ q
     ++ " rel=" ++ q ++ "self" ++ q
     ++ " type=" ++ q ++ "application/rss+xml" ++ q ++ " />" ++
  lf ++ "    ".

Definition channelTail : string :=
  lf ++ "  </channel>" ++
  lf ++ "</rss>".

Definition generateRSS (h : Host) (posts : value) : completion string :=
  let now := clock h in
  match posts with
  | VArr xs =>
      items <- mapM (renderItem h now) xs ;;
      let rssItems := String.concat EmptyString items in
      name <- escapeXml (VStr (SITE_NAME h)) ;;
      description <- escapeXml (VStr (SITE_DESCRIPTION h)) ;;
      Normal (channelHead h now name description ++ rssItems ++ channelTail)
  | _ => Throw TypeError          (* only an array has [map] *)
  end.

(* ------------------------------------------------------------------ *)
(** ** The request handler *)

Inductive payload : Type :=
| Text (s : string)      (* [res.send(s)] *)
| Json (v : value).      (* [res.json(v)] *)

Record sent_response : Type := {
  sent_status : Z;
  sent_headers : list (string * string);
  sent_body : payload
}.

(** The response object [res]: the headers and status set so far, the
    responses written, and what went to [console.error]. *)
Record Res : Type := {
  res_headers : list (string * string);
  res_statusCode : Z;
  res_sent : list sent_response;
  res_console : list exn
}.

Definition fresh_res : Res :=
  {| res_headers := []; res_statusCode := 200; res_sent := []; res_console := [] |}.

Definition setHeader (name v : string) (res : Res) : Res :=
  {| res_headers := res_headers res ++ [(name, v)];
     res_statusCode := res_statusCode res;
     res_sent := res_sent res;
     res_console := res_console res |}.

Definition set_status (code : Z) (res : Res) : Res :=
  {| res_headers := res_headers res;
     res_statusCode := code;
     res_sent := res_sent res;
     res_console := res_console res |}.

Definition write (body : payload) (res : Res) : Res :=
  {| res_headers := res_headers res;
     res_statusCode := res_statusCode res;
     res_sent := res_sent res
                 ++ [{| sent_status := res_statusCode res;
                        sent_headers := res_headers res;
                        sent_body := body |}];
     res_console := res_console res |}.

Definition console_error (e : exn) (res : Res) : Res :=
  {| res_headers := res_headers res;
     res_statusCode := res_statusCode res;
     res_sent := res_sent res;
     res_console := res_console res ++ [e] |}.

Definition errorBody : value :=
  VObj [("error", VStr "Failed to generate RSS feed")].

(** The [try] block up to the value sent: the fetch, then the rendering. *)
Definition feed (h : Host) : completion string :=
  posts <- fetchWebflowPosts h ;;
  generateRSS h posts.

(** [handler(req, res)]; the request is not read. *)
Definition handler {Req : Type} (h : Host) (req : Req) (res : Res) : Res :=
  let res := setHeader "Access-Control-Allow-Origin" "*" res in
  let res := setHeader "Content-Type" "application/rss+xml; charset=utf-8" res in
  match feed h with
  | Normal rssXml => write (Text rssXml) (set_status 200 res)
  | Throw error =>
      write (Json errorBody) (set_status 500 (console_error error res))
  end.

(* ------------------------------------------------------------------ *)
(** ** A reading of the specification, to compare the code with *)

Module Spec.

(** Replace each occurrence of the character [c] by [rep]. *)
Fixpoint subst_char (c : ascii) (rep : string) (s : string) : string :=
  match s with
  | EmptyString => EmptyString
  | String a s' =>
      if Ascii.eqb a c then rep ++ subst_char c rep s'
      else String a (subst_char c rep s')
  end.

(** The entity of one character. *)
Definition entity (c : ascii) : string :=
  if Ascii.eqb c amp then "&amp;"
  else if Ascii.eqb c lt then "&lt;"
  else if Ascii.eqb c gt then "&gt;"
  else if Ascii.eqb c dquote then "&quot;"
  else if Ascii.eqb c squote then "&#39;"
  else str1 c.

(** Escaping in one pass: each character gives its entity. *)
Fixpoint escape_each (s : string) : string :=
  match s with
  | EmptyString => EmptyString
  | String c s' => entity c ++ escape_each s'
  end.

(** Plain text to HTML in one pass from the left: two newlines in a row
    give a paragraph break, a newline that is left gives a line break. *)
Fixpoint paragraphs (s : string) : string :=
  match s with
  | EmptyString => EmptyString
  | String c s1 =>
      if Ascii.eqb c nl then
        match s1 with
        | String d s2 =>
            if Ascii.eqb d nl then "</p><p>" ++ paragraphs s2
            else "<br>" ++ paragraphs s1
        | EmptyString => "<br>"
        end
      else String c (paragraphs s1)
  end.

(** The values the heuristic keeps: the strings longer than 100
    characters that look like content, in the order given. *)
Fixpoint likely_strings (vs : list value) : list string :=
  match vs with
  | [] => []
  | VStr s :: rest =>
      if (100 <? String.length s)%nat && isLikelyContent s
      then s :: likely_strings rest
      else likely_strings rest
  | _ :: rest => likely_strings rest
  end.

End Spec.
Import Spec.

(* ------------------------------------------------------------------ *)
(** ** Classes of values and sample inputs *)

(** The values that are not objects. *)
Definition is_primitive (v : value) : bool :=
  match v with
  | VArr _ | VObj _ => false
  | _ => true
  end.

(** The value of the JSON text [{"toString": 1}]. *)
Definition shadowed_toString : value := VObj [("toString", VNum 1)].

(** A mapping with two candidate fields, [body] before [rich-text] in the
    candidate order and after it in the mapping. *)
Definition two_candidates : value :=
  VObj [("rich-text", VStr "<p>fifth</p>");
        ("notes", VStr "unrelated");
        ("body", VStr "<p>second</p>");
        ("content", VStr EmptyString)].

Fixpoint repeat_string (n : nat) (s : string) : string :=
  match n with
  | O => EmptyString
  | S n' => s ++ repeat_string n' s
  end.

(** A plain text of 150 characters and 26 space-separated pieces. *)
Definition plain150 : string := repeat_string 25 "lorem ".

(** A host without environment variables, whose network gives [r]. *)
Definition sample_host (r : completion response) : Host :=
  {| process_env := fun _ => None;
     clock := "Mon, 02 Nov 2026 00:00:00 GMT";
     utc_of_time := fun _ => "Thu, 01 Jan 1970 00:00:00 GMT";
     utc_of_text := fun s => s;
     fetch := fun _ => r |}.

Definition sample_post : value :=
  VObj [("id", VStr "p1");
        ("createdOn", VStr "2024-05-01");
        ("fieldData", VObj [("name", VStr "A & B");
                            ("slug", VStr "first");
                            ("summary", VStr "x<y & z");
                            ("content", VStr "<p>Hi</p>")])].

(** The record of the JSON text
    [{"id": "1", "fieldData": {"content": 42}}]. *)
Definition numeric_content_post : value :=
  VObj [("id", VStr "1"); ("fieldData", VObj [("content", VNum 42)])].

(** The item of [sample_post] on [sample_host]. *)
Definition sample_item : string :=
  itemTemplate "A &amp; B" "https://yoursite.com/blog/first" "2024-05-01"
    EmptyString "x&lt;y &amp; z" "<p>Hi</p>".

(** [null] and [undefined], on which reading a property throws. *)
Definition nullish (v : value) : bool :=
  match v with
  | VUndefined | VNull => true
  | _ => false
  end.

(** The request built when the environment is empty. *)
Definition sample_request : request :=
  {| req_url := "https://api.webflow.com/v2/collections/undefined/items";
     req_method := "GET";
     req_headers := [("Authorization", "Bearer undefined");
                     ("Accept", "application/json");
                     ("Content-Type", "application/json")] |}.

Definition forbidden : response :=
  {| status := 403; statusText := "Forbidden"; json := None |}.

(** A success whose body is the JSON text [{}]. *)
Definition empty_object_body : response :=
  {| status := 200; statusText := "OK"; json := Some (VObj []) |}.

(** A success whose body is the JSON text [null]. *)
Definition null_body : response :=
  {| status := 200; statusText := "OK"; json := Some VNull |}.

(* ------------------------------------------------------------------ *)
(** ** The local test function *)

(** What [console.log] and [console.error] receive. *)
Inductive log_entry : Type :=
| ConsoleLog (s : string)
| ConsoleError (label : string) (e : exn).

(** [v.slice(0, 3)]: the first three elements of an array, the first
    three characters of a string; no other value has the method. *)
Definition call_slice_0_3 (v : value) : completion value :=
  match v with
  | VArr xs => Normal (VArr (firstn 3 xs))
  | VStr s => Normal (VStr (substring 0 3 s))
  | _ => Throw TypeError
  end.

(** The [try] block of [testRssFeed] after the fetch: the line logged
    first, then the feed of the first three posts. *)
Definition foundLine (posts : value) : completion string :=
  len <- get_dot posts "length" ;;
  n <- ToString len ;;
  Normal ("Found " ++ n ++ " posts").

Definition testFeed (h : Host) (posts : value) : completion string :=
  first <- call_slice_0_3 posts ;;
  generateRSS h first.

(** [testRssFeed()]: the console output, in order.  An exception leaves
    the [try] block at the point it is thrown, so what was logged before
    stays logged. *)
Definition testRssFeed (h : Host) : list log_entry :=
  match fetchWebflowPosts h with
  | Throw e => [ConsoleError "Test failed:" e]
  | Normal posts =>
      match foundLine posts with
      | Throw e => [ConsoleError "Test failed:" e]
      | Normal line =>
          ConsoleLog line
          :: match testFeed h posts with
             | Normal rss => [ConsoleLog rss]
             | Throw e => [ConsoleError "Test failed:" e]
             end
      end
  end.

(* ------------------------------------------------------------------ *)
(** ** Further notions used to state results *)

Module Notions.

(** The five characters [escapeXml] replaces. *)
Definition reserved (c : ascii) : bool :=
  Ascii.eqb c amp || Ascii.eqb c lt || Ascii.eqb c gt
  || Ascii.eqb c dquote || Ascii.eqb c squote.

(** Some character of [s] is reserved. *)
Fixpoint needs_escape (s : string) : bool :=
  match s with
  | EmptyString => false
  | String c s' => reserved c || needs_escape s'
  end.

(** Reading entities back, from the left; [skip] counts the characters of
    the current entity still to be passed over. *)
Fixpoint unescape_from (skip : nat) (s : string) : string :=
  match s with
  | EmptyString => EmptyString
  | String c s' =>
      match skip with
      | S k => unescape_from k s'
      | O =>
          if startsWith "&amp;" s then String amp (unescape_from 4 s')
          else if startsWith "&lt;" s then String lt (unescape_from 3 s')
          else if startsWith "&gt;" s then String gt (unescape_from 3 s')
          else if startsWith "&quot;" s then String dquote (unescape_from 5 s')
          else if startsWith "&#39;" s then String squote (unescape_from 4 s')
          else String c (unescape_from 0 s')
      end
  end.

Definition unescape (s : string) : string := unescape_from 0 s.

(** The number of occurrences of the character [c] in [s]. *)
Fixpoint count_char (c : ascii) (s : string) : nat :=
  match s with
  | EmptyString => 0
  | String a s' => (if Ascii.eqb a c then 1 else 0) + count_char c s'
  end.

Definition is_string (v : value) : bool :=
  match v with VStr _ => true | _ => false end.

Definition is_array (v : value) : bool :=
  match v with VArr _ => true | _ => false end.

(** A record as the CMS delivers it: an object whose [createdOn] and [id]
    are primitive values or absent, and whose [fieldData] is absent or an
    object with string values only. *)
Definition plain_record (post : value) : bool :=
  match post with
  | VObj _ =>
      is_primitive (get post "createdOn")
      && is_primitive (get post "id")
      && match get post "fieldData" with
         | VUndefined => true
         | VObj fields => forallb is_string (map snd fields)
         | _ => false
         end
  | _ => false
  end.

End Notions.
Import Notions.

(** A success whose body is the JSON text [{"items": "none"}]. *)
Definition items_is_text : response :=
  {| status := 200; statusText := "OK";
     json := Some (VObj [("items", VStr "none")]) |}.

(** A success whose body holds one record. *)
Definition one_plain_item : response :=
  {| status := 200; statusText := "OK";
     json := Some (VObj [("items", VArr [sample_post])]) |}.

(** A success whose body holds four records, the last one with a number
    as its content. *)
Definition four_items : response :=
  {| status := 200; statusText := "OK";
     json := Some (VObj [("items", VArr [sample_post; sample_post; sample_post;
                                         numeric_content_post])]) |}.

(* ------------------------------------------------------------------ *)
(** ** Words, as a reader counts them *)

Module Words.

Definition tab : ascii := "009"%char.
Definition cr : ascii := "013"%char.

(** White space other than the space character. *)
Definition other_whitespace (c : ascii) : bool :=
  Ascii.eqb c tab || Ascii.eqb c nl || Ascii.eqb c cr.

Definition is_space (c : ascii) : bool :=
  Ascii.eqb c " "%char || other_whitespace c.

(** The number of words of [s]: the maximal runs of characters that are
    not white space.  [in_word] tells whether the previous character
    belongs to a word. *)
Fixpoint count_words (in_word : bool) (s : string) : nat :=
  match s with
  | EmptyString => 0
  | String c s' =>
      if is_space c then count_words false s'
      else (if in_word then 0 else 1) + count_words true s'
  end.

Definition word_count (s : string) : nat := count_words false s.

(** Some white space of [s] is not the space character. *)
Fixpoint has_other_whitespace (s : string) : bool :=
  match s with
  | EmptyString => false
  | String c s' => other_whitespace c || has_other_whitespace s'
  end.

End Words.
Import Words.

(** 75 one-letter words, each followed by a newline: 150 characters. *)
Definition newline_words150 : string := repeat_string 75 ("w" ++ lf).

(** 101 spaces. *)
Definition spaces101 : string := repeat_string 101 " ".

(** A paragraph whose opening tag carries an attribute: 117 characters. *)
Definition classed_paragraph : string :=
  "<p class=" ++ q ++ "a" ++ q ++ ">" ++ repeat_string 25 "text" ++ "</p>".

(** A text without spaces that ends with a horizontal rule: 104
    characters. *)
Definition ruled_text : string := repeat_string 25 "text" ++ "<hr>".

(** The record of the JSON text
    [{"id": 5, "fieldData": {"slug": 12}}]. *)
Definition numeric_slug_post : value :=
  VObj [("id", VNum 5); ("fieldData", VObj [("slug", VNum 12)])].

(* ------------------------------------------------------------------ *)
(** ** Facts about strings *)

Section StringFacts.

Lemma append_nil_r (s : string) : s ++ EmptyString = s.
Proof. induction s as [|a s IH]; simpl; [reflexivity | now rewrite IH]. Qed.

Lemma append_assoc (a b c : string) : (a ++ b) ++ c = a ++ (b ++ c).
Proof. induction a as [|x a IH]; simpl; [reflexivity | now rewrite IH]. Qed.

Lemma has_char_app (c : ascii) (a b : string) :
  has_char c (a ++ b) = has_char c a || has_char c b.
Proof.
  induction a as [|x a IH]; simpl; [reflexivity|].
  now rewrite IH, orb_assoc.
Qed.

Lemma startsWith_str1 (c a : ascii) (s : string) :
  startsWith (str1 c) (String a s) = Ascii.eqb a c.
Proof.
  unfold str1; simpl. rewrite andb_true_r. apply Ascii.eqb_sym.
Qed.

Lemma includes_str1 (c : ascii) (s : string) :
  includes (str1 c) s = has_char c s.
Proof.
  induction s as [|a s IH]; [reflexivity|].
  change (includes (str1 c) (String a s))
    with (startsWith (str1 c) (String a s) || includes (str1 c) s).
  now rewrite startsWith_str1, IH.
Qed.

(** A global replace of a one-character pattern works character by
    character. *)
Lemma replaceAll_str1 (c : ascii) (rep s : string) :
  replaceAll (str1 c) rep s = subst_char c rep s.
Proof.
  unfold replaceAll.
  induction s as [|a s IH]; [reflexivity|].
  change (replace_from (str1 c) rep 0 (String a s))
    with (if startsWith (str1 c) (String a s)
          then rep ++ replace_from (str1 c) rep 0 s
          else String a (replace_from (str1 c) rep 0 s)).
  rewrite startsWith_str1, IH. reflexivity.
Qed.

Lemma subst_char_app (c : ascii) (rep a b : string) :
  subst_char c rep (a ++ b) = subst_char c rep a ++ subst_char c rep b.
Proof.
  induction a as [|x a IH]; simpl; [reflexivity|].
  destruct (Ascii.eqb x c); simpl; rewrite IH;
    [now rewrite append_assoc | reflexivity].
Qed.

Lemma subst_char_removes (c : ascii) (rep s : string) :
  has_char c rep = false -> has_char c (subst_char c rep s) = false.
Proof.
  intros Hrep. induction s as [|a s IH]; simpl; [reflexivity|].
  destruct (Ascii.eqb a c) eqn:E.
  - now rewrite has_char_app, Hrep, IH.
  - simpl. now rewrite E, IH.
Qed.

End StringFacts.

(** The chain of replacements as character substitutions. *)
Lemma escape_chain_subst (s : string) :
  escape_chain s =
  subst_char squote "&#39;"
    (subst_char dquote "&quot;"
      (subst_char gt "&gt;"
        (subst_char lt "&lt;"
          (subst_char amp "&amp;" s)))).
Proof.
  unfold escape_chain.
  change "&" with (str1 amp). change "<" with (str1 lt). change ">" with (str1 gt).
  now rewrite !replaceAll_str1.
Qed.

(** Replacing the ampersand first makes the five passes equal to one pass
    that maps each character of the input to its entity. *)
Lemma escape_chain_each (s : string) : escape_chain s = escape_each s.
Proof.
  rewrite escape_chain_subst.
  induction s as [|a s IH]; [reflexivity|].
  cbn [escape_each]. rewrite <- IH. unfold entity.
  cbn [subst_char].
  destruct (Ascii.eqb_spec a amp) as [->|Hamp].
  { rewrite !subst_char_app. reflexivity. }
  cbn [subst_char].
  destruct (Ascii.eqb_spec a lt) as [->|Hlt].
  { rewrite !subst_char_app. reflexivity. }
  cbn [subst_char].
  destruct (Ascii.eqb_spec a gt) as [->|Hgt].
  { rewrite !subst_char_app. reflexivity. }
  cbn [subst_char].
  destruct (Ascii.eqb_spec a dquote) as [->|Hdq].
  { rewrite !subst_char_app. reflexivity. }
  cbn [subst_char].
  destruct (Ascii.eqb_spec a squote) as [->|Hsq]; reflexivity.
Qed.

Lemma entity_no_reserved (c d : ascii) :
  In d [lt; gt; dquote; squote] -> has_char d (entity c) = false.
Proof.
  intros Hd. unfold entity.
  destruct (Ascii.eqb_spec c amp); [destruct Hd as [<-|[<-|[<-|[<-|[]]]]]; reflexivity|].
  destruct (Ascii.eqb_spec c lt); [destruct Hd as [<-|[<-|[<-|[<-|[]]]]]; reflexivity|].
  destruct (Ascii.eqb_spec c gt); [destruct Hd as [<-|[<-|[<-|[<-|[]]]]]; reflexivity|].
  destruct (Ascii.eqb_spec c dquote); [destruct Hd as [<-|[<-|[<-|[<-|[]]]]]; reflexivity|].
  destruct (Ascii.eqb_spec c squote); [destruct Hd as [<-|[<-|[<-|[<-|[]]]]]; reflexivity|].
  simpl. rewrite orb_false_r.
  destruct Hd as [<-|[<-|[<-|[<-|[]]]]]; now apply Ascii.eqb_neq.
Qed.

Lemma escape_each_no_reserved (s : string) (d : ascii) :
  In d [lt; gt; dquote; squote] -> has_char d (escape_each s) = false.
Proof.
  intros Hd. induction s as [|c s IH]; [reflexivity|].
  cbn [escape_each]. now rewrite has_char_app, entity_no_reserved, IH.
Qed.

Lemma escapeXml_falsy (v : value) :
  truthy v = false -> escapeXml v = Normal EmptyString.
Proof. intros H. unfold escapeXml. now rewrite H. Qed.

Lemma escapeXml_truthy (v : value) :
  truthy v = true ->
  escapeXml v = (s <- ToString v ;; Normal (escape_chain s)).
Proof.
  intros H. unfold escapeXml. rewrite H. cbn [negb].
  destruct v; try discriminate; reflexivity.
Qed.

Lemma escapeXml_VStr (s : string) : escapeXml (VStr s) = Normal (escape_chain s).
Proof.
  unfold escapeXml. destruct s; reflexivity.
Qed.

Lemma escapeXml_no_reserved (v : value) (s : string) (d : ascii) :
  escapeXml v = Normal s ->
  In d [lt; gt; dquote; squote] -> has_char d s = false.
Proof.
  unfold escapeXml. destruct (truthy v); cbn [negb].
  - destruct (call_toString v) as [t|e]; cbn [bind]; [|discriminate].
    intros [= <-] Hd. rewrite escape_chain_each.
    now apply escape_each_no_reserved.
  - intros [= <-] _. reflexivity.
Qed.

(* ------------------------------------------------------------------ *)
(** ** The XML escaper: results *)

(** C5, as the code has it.  [escapeXml] maps every falsy input ([null],
    [undefined], the empty string, [0], [false]) to the empty string.  On
    any other input it calls [toString()] and, when that call returns a
    string, replaces the five reserved characters in the order [&], [<],
    [>], double quote, single quote, which amounts to mapping each
    character to its entity; the six characters [<], [a], [>], [&], double
    quote, single quote give [&lt;a&gt;&amp;&quot;&#39;].  It returns on every primitive and on
    every value whose [toString()] returns, and throws exactly when that
    call throws. *)
Theorem escapeXml_falsy_empty_else_five_replacements (v : value) :
  (truthy v = false -> escapeXml v = Normal EmptyString)
  /\ (map truthy [VNull; VUndefined; VStr EmptyString; VNum 0; VBool false]
      = [false; false; false; false; false])
  /\ (forall t, truthy v = true -> ToString v = Normal t ->
        escapeXml v =
          Normal (replaceAll (str1 squote) "&#39;"
                   (replaceAll (str1 dquote) "&quot;"
                     (replaceAll ">" "&gt;"
                       (replaceAll "<" "&lt;"
                         (replaceAll "&" "&amp;" t)))))
        /\ escapeXml v = Normal (escape_each t))
  /\ (forall e, truthy v = true -> ToString v = Throw e -> escapeXml v = Throw e)
  /\ (is_primitive v = true -> returns (escapeXml v) = true)
  /\ escapeXml (VStr ("<a>&" ++ str1 dquote ++ str1 squote))
     = Normal "&lt;a&gt;&amp;&quot;&#39;".
Proof.
  repeat split.
  - apply escapeXml_falsy.
  - rewrite escapeXml_truthy by assumption. now rewrite H0.
  - rewrite escapeXml_truthy by assumption. rewrite H0. cbn [bind].
    now rewrite escape_chain_each.
  - intros e Ht He. rewrite escapeXml_truthy by assumption. now rewrite He.
  - intros Hp. unfold escapeXml.
    destruct v as [| |b|n|s|xs|ps]; try discriminate; try reflexivity.
    + destruct b; reflexivity.
    + destruct (truthy (VNum n)); reflexivity.
    + destruct (truthy (VStr s)); reflexivity.
Qed.

Lemma escapeXml_falsy_empty_else_five_replacements_witness :
  escapeXml (VNum 7) = Normal (escape_each "7").
Proof.
  destruct (escapeXml_falsy_empty_else_five_replacements (VNum 7))
    as (_ & _ & H & _).
  apply (H "7"); reflexivity.
Defined.

(** C5, as the claim states it, fails: an object parsed from the JSON text
    [{"toString": 1}] is truthy and its [toString] is not a function, so
    [escapeXml] throws. *)
Lemma escapeXml_throws_on_shadowed_toString :
  truthy shadowed_toString = true
  /\ escapeXml shadowed_toString = Throw TypeError
  /\ ~ (forall v, returns (escapeXml v) = true).
Proof.
  repeat split.
  intros H. specialize (H shadowed_toString). discriminate H.
Qed.

(** C10.  Whatever the input, a string returned by [escapeXml] contains
    no [<], [>], double quote or single quote: each character of the
    converted input has been replaced by its entity, and no entity
    contains one of these four characters. *)
Theorem escapeXml_output_free_of_markup (v : value) (s : string) :
  escapeXml v = Normal s ->
  has_char lt s = false /\ has_char gt s = false
  /\ has_char dquote s = false /\ has_char squote s = false
  /\ (truthy v = true -> exists t, ToString v = Normal t /\ s = escape_each t).
Proof.
  intros H.
  repeat split;
    try (apply (escapeXml_no_reserved v s _ H); simpl; tauto).
  intros Ht. rewrite (escapeXml_truthy v Ht) in H.
  destruct (ToString v) as [t|e]; [|discriminate].
  exists t. split; [reflexivity|].
  cbn [bind] in H. injection H as <-. apply escape_chain_each.
Qed.

Lemma escapeXml_output_free_of_markup_witness :
  has_char lt "&lt;b&gt; &amp; &quot;c&quot;" = false.
Proof.
  apply (escapeXml_output_free_of_markup
           (VStr ("<b> & " ++ q ++ "c" ++ q)) "&lt;b&gt; &amp; &quot;c&quot;").
  reflexivity.
Defined.

(* ------------------------------------------------------------------ *)
(** ** The content extractor: results *)

Lemma replace_nlnl_cons (c : ascii) (s : string) :
  replace_from nlnl "</p><p>" 0 (String c s) =
  if Ascii.eqb c nl then
    match s with
    | String d s2 =>
        if Ascii.eqb d nl then "</p><p>" ++ replace_from nlnl "</p><p>" 0 s2
        else String c (replace_from nlnl "</p><p>" 0 s)
    | EmptyString => str1 c
    end
  else String c (replace_from nlnl "</p><p>" 0 s).
Proof.
  cbn [replace_from startsWith nlnl].
  rewrite (Ascii.eqb_sym nl c).
  destruct (Ascii.eqb c nl); cbn [andb]; [|reflexivity].
  destruct s as [|d s2]; [reflexivity|].
  cbn [startsWith]. rewrite (Ascii.eqb_sym nl d), andb_true_r.
  destruct (Ascii.eqb d nl); reflexivity.
Qed.

(** The two passes of [processRichTextContent] do what one pass from the
    left does: the paragraph break holds no newline, so the second pass
    only meets the newlines the first one left. *)
Lemma convert_line_breaks_paragraphs (s : string) :
  convert_line_breaks s = paragraphs s.
Proof.
  unfold convert_line_breaks. rewrite replaceAll_str1. unfold replaceAll.
  enough (H : subst_char nl "<br>" (replace_from nlnl "</p><p>" 0 s) = paragraphs s
              /\ forall c, subst_char nl "<br>"
                             (replace_from nlnl "</p><p>" 0 (String c s))
                           = paragraphs (String c s)) by apply H.
  induction s as [|d s2 [IH1 IH2]].
  - split; [reflexivity|]. intros c. rewrite replace_nlnl_cons.
    cbn [paragraphs]. destruct (Ascii.eqb c nl) eqn:E; cbn; rewrite E; reflexivity.
  - split; [apply IH2|]. intros c. rewrite replace_nlnl_cons.
    cbn [paragraphs]. destruct (Ascii.eqb c nl) eqn:E.
    + destruct (Ascii.eqb d nl) eqn:E'.
      * rewrite subst_char_app, IH1. reflexivity.
      * cbn [subst_char]. rewrite E, IH2. cbn [paragraphs]. now rewrite E'.
    + cbn [subst_char]. rewrite E, IH2. reflexivity.
Qed.

Lemma append_not_empty (a b : string) :
  b <> EmptyString -> String.eqb (a ++ b) EmptyString = false.
Proof.
  intros Hb. apply String.eqb_neq. intros H.
  destruct a; simpl in H; [contradiction | discriminate].
Qed.

Lemma truthy_VStr (s : string) : s <> EmptyString -> truthy (VStr s) = true.
Proof.
  intros H. simpl. apply negb_true_iff. now apply String.eqb_neq.
Qed.

Lemma processRichTextContent_VStr (s : string) :
  s <> EmptyString ->
  processRichTextContent (VStr s) =
  Normal (VStr (if includes "<" s && includes ">" s then s
                else convert_line_breaks s)).
Proof.
  intros H. unfold processRichTextContent.
  rewrite (truthy_VStr s H). cbn [negb call_includes bind].
  destruct (includes "<" s); cbn [bind andb]; [|reflexivity].
  destruct (includes ">" s); reflexivity.
Qed.

(** The loop stops at the first candidate with a truthy value. *)
Lemma probe_first (fd : value) (before after : list string) (k : string) :
  (forall k', In k' before -> truthy (get fd k') = false) ->
  truthy (get fd k) = true ->
  probe fd (before ++ k :: after)%list = get fd k.
Proof.
  intros Hb Hk. induction before as [|b before IH]; simpl.
  - now rewrite Hk.
  - rewrite (Hb b) by now left. apply IH. intros k' Hin. apply Hb. now right.
Qed.

(** The loop leaves the empty string when no candidate is truthy. *)
Lemma probe_none (fd : value) (names : list string) :
  (forall k, In k names -> truthy (get fd k) = false) ->
  probe fd names = VStr EmptyString.
Proof.
  intros H. induction names as [|n names IH]; simpl; [reflexivity|].
  rewrite (H n) by now left. apply IH. intros k Hin. apply H. now right.
Qed.

(** The loop returns a truthy value or the empty string. *)
Lemma probe_truthy_or_empty (fd : value) (names : list string) :
  truthy (probe fd names) = true \/ probe fd names = VStr EmptyString.
Proof.
  induction names as [|n names IH]; simpl; [now right|].
  destruct (truthy (get fd n)) eqn:E; [now left | exact IH].
Qed.

(** C2.  The candidates are probed in the order [content], [body],
    [post-body], [main-content], [rich-text], [blog-content].  When [k] is
    the first of them whose value in the mapping is truthy, that value is
    the content before normalization, and the result of the extractor is
    the normalization of that value alone: the heuristic scan of the other
    fields does not run, so no other field has any influence. *)
Theorem extractFullContent_first_candidate_wins
  (fieldData : value) (before after : list string) (k : string) :
  contentFields = (before ++ k :: after)%list ->
  truthy fieldData = true ->
  (forall k', In k' before -> truthy (get fieldData k') = false) ->
  truthy (get fieldData k) = true ->
  contentFields
    = ["content"; "body"; "post-body"; "main-content"; "rich-text"; "blog-content"]
  /\ probe fieldData contentFields = get fieldData k
  /\ rawContent fieldData = get fieldData k
  /\ extractFullContent fieldData = processRichTextContent (get fieldData k).
Proof.
  intros Hsplit Hfd Hbefore Hk.
  assert (Hp : probe fieldData contentFields = get fieldData k).
  { rewrite Hsplit. now apply probe_first. }
  assert (Hr : rawContent fieldData = get fieldData k).
  { unfold rawContent. now rewrite Hp, Hk. }
  repeat split; try assumption.
  unfold extractFullContent. now rewrite Hfd, Hr, Hk.
Qed.

Lemma extractFullContent_first_candidate_wins_witness :
  extractFullContent two_candidates = Normal (VStr "<p>second</p>").
Proof.
  refine (eq_trans
    (proj2 (proj2 (proj2
       (extractFullContent_first_candidate_wins two_candidates
          ["content"] ["post-body"; "main-content"; "rich-text"; "blog-content"]
          "body" eq_refl eq_refl _ eq_refl)))) eq_refl).
  intros k' [<-|[]]. reflexivity.
Defined.

(** C3.  When the content found is a non-empty string, the extractor
    returns it unchanged if it contains both [<] and [>]; otherwise it
    returns the string in which every pair of newlines, taken from the
    left, has become [</p><p>] and every newline then left has become
    [<br>].  The mapping with the single field [body] holding
    [Line one], two newlines, [Line two], a newline, [Line three] gives
    [Line one</p><p>Line two<br>Line three]. *)
Theorem extractFullContent_normalizes (fieldData : value) (s : string) :
  truthy fieldData = true ->
  rawContent fieldData = VStr s ->
  s <> EmptyString ->
  extractFullContent fieldData
    = Normal (VStr (if includes "<" s && includes ">" s then s
                    else replaceAll (str1 nl) "<br>" (replaceAll nlnl "</p><p>" s)))
  /\ replaceAll (str1 nl) "<br>" (replaceAll nlnl "</p><p>" s) = paragraphs s
  /\ has_char nl (paragraphs s) = false
  /\ extractFullContent
       (VObj [("body", VStr ("Line one" ++ nlnl ++ "Line two" ++ lf ++ "Line three"))])
     = Normal (VStr "Line one</p><p>Line two<br>Line three").
Proof.
  intros Hfd Hraw Hs. repeat split.
  - unfold extractFullContent. rewrite Hfd, Hraw, (truthy_VStr s Hs).
    cbn [negb]. now apply processRichTextContent_VStr.
  - apply convert_line_breaks_paragraphs.
  - rewrite <- convert_line_breaks_paragraphs. unfold convert_line_breaks.
    rewrite replaceAll_str1. now apply subst_char_removes.
Qed.

Lemma extractFullContent_normalizes_witness :
  extractFullContent (VObj [("content", VStr ("a" ++ lf ++ "b"))])
  = Normal (VStr "a<br>b").
Proof.
  refine (proj1 (extractFullContent_normalizes
                   (VObj [("content", VStr ("a" ++ lf ++ "b"))])
                   ("a" ++ lf ++ "b") eq_refl eq_refl _)).
  discriminate.
Defined.

(** The [forEach] loop appends, to what is there, the kept strings each
    followed by two newlines. *)
Lemma fold_scan_step (vs : list value) (acc : string) :
  fold_left scan_step vs acc
  = acc ++ String.concat EmptyString
             (map (fun s => s ++ nlnl) (likely_strings vs)).
Proof.
  revert acc. induction vs as [|v vs IH]; intros acc.
  - simpl. now rewrite append_nil_r.
  - cbn [fold_left]. rewrite IH.
    destruct v as [| |b|n|s|xs|ps]; try reflexivity.
    cbn [scan_step likely_strings].
    destruct ((100 <? String.length s)%nat && isLikelyContent s); [|reflexivity].
    cbn [map]. rewrite append_assoc. f_equal.
    destruct (map (fun s0 => s0 ++ nlnl) (likely_strings vs)) as [|y ys] eqn:E.
    + cbn [String.concat]. now rewrite append_nil_r.
    + cbn [String.concat]. reflexivity.
Qed.

Lemma likely_strings_In (vs : list value) (s : string) :
  In s (likely_strings vs) <->
  In (VStr s) vs /\ (100 < String.length s)%nat /\ isLikelyContent s = true.
Proof.
  induction vs as [|v vs IH]; [simpl; tauto|].
  destruct v as [| |b|n|t|xs|ps];
    try (cbn [likely_strings In]; rewrite IH;
         split; [tauto | intros [[H|H] ?]; [discriminate H | tauto]]).
  cbn [likely_strings].
  destruct ((100 <? String.length t)%nat && isLikelyContent t) eqn:E.
  - apply andb_true_iff in E as [E1 E2]. apply Nat.ltb_lt in E1.
    cbn [In]. rewrite IH. split.
    + intros [<-|H]; [repeat split; auto | tauto].
    + intros [[H|H] ?]; [injection H as ->; now left | tauto].
  - cbn [In]. rewrite IH. split; [tauto|].
    intros [[H|H] [H1 H2]]; [|tauto].
    injection H as ->. apply Nat.ltb_lt in H1. rewrite H1, H2 in E. discriminate.
Qed.

Lemma get_single_other (k k' : string) (v : value) :
  k' <> k -> get (VObj [(k, v)]) k' = VUndefined.
Proof.
  intros H. apply String.eqb_neq in H. simpl. now rewrite H.
Qed.

Lemma split_not_shorter (c : ascii) (s : string) :
  (List.length (split " " s) <= List.length (split " " (String c s)))%nat.
Proof.
  cbn [split]. destruct (Ascii.eqb c " "); [cbn [List.length]; lia|].
  destruct (split " " s); cbn [List.length]; lia.
Qed.

(** When spaces are the only white space, a string has at most as many
    words as [split(' ')] gives pieces. *)
Lemma count_words_le_pieces (in_word : bool) (s : string) :
  has_other_whitespace s = false ->
  (count_words in_word s + (if in_word then 1 else 0)
   <= List.length (split " " s))%nat.
Proof.
  revert in_word. induction s as [|c s IH]; intros in_word.
  - intros _. destruct in_word; cbn; lia.
  - cbn [has_other_whitespace]. intros H. apply orb_false_iff in H as [Hc Hs].
    cbn [count_words]. unfold is_space. rewrite Hc, orb_false_r.
    destruct (Ascii.eqb c " ") eqn:E.
    + specialize (IH false Hs). cbn [split]. rewrite E. cbn [List.length].
      destruct in_word; cbv iota in *; lia.
    + specialize (IH true Hs). pose proof (split_not_shorter c s).
      destruct in_word; cbv iota in *; lia.
Qed.

(** C4, as the code has it.  When no candidate field is truthy, the
    content before normalization is the concatenation, in the order
    [Object.values] gives, of the kept values each followed by two
    newlines; a value is kept exactly when it is a string of more than 100
    characters that contains [<p>], [<h] or [<div], or that splits on the
    space character into more than 20 pieces and contains neither [@] nor
    [http].  A single field that is not a candidate and holds a
    150-character string with no [<], no [@], no [http] and more than 20
    such pieces is selected: the content before normalization is that
    string followed by two newlines.  That is so in particular when the
    string has more than 20 words and its only white space is the space
    character. *)
Theorem extractFullContent_heuristic_scan :
  (forall fieldData,
     truthy fieldData = true ->
     (forall k, In k contentFields -> truthy (get fieldData k) = false) ->
     rawContent fieldData
       = VStr (String.concat EmptyString
                 (map (fun s => s ++ nlnl)
                      (likely_strings (Object_values fieldData)))))
  /\ (forall vs s,
        In s (likely_strings vs) <->
        In (VStr s) vs /\ (100 < String.length s)%nat
        /\ (includes "<p>" s || includes "<h" s || includes "<div" s
            || ((20 <? List.length (split " " s))%nat
                && negb (includes "@" s) && negb (includes "http" s))) = true)
  /\ (forall k s,
        ~ In k contentFields ->
        String.length s = 150%nat ->
        has_char lt s = false ->
        includes "@" s = false -> includes "http" s = false ->
        (20 < List.length (split " " s))%nat ->
        rawContent (VObj [(k, VStr s)]) = VStr (s ++ nlnl)
        /\ extractFullContent (VObj [(k, VStr s)])
           = Normal (VStr (paragraphs (s ++ nlnl))))
  /\ (forall k s,
        ~ In k contentFields ->
        String.length s = 150%nat ->
        has_char lt s = false ->
        includes "@" s = false -> includes "http" s = false ->
        has_other_whitespace s = false ->
        (20 < word_count s)%nat ->
        (20 < List.length (split " " s))%nat
        /\ rawContent (VObj [(k, VStr s)]) = VStr (s ++ nlnl)
        /\ extractFullContent (VObj [(k, VStr s)])
           = Normal (VStr (paragraphs (s ++ nlnl)))).
Proof.
  assert (Hexample : forall k s,
            ~ In k contentFields ->
            String.length s = 150%nat ->
            has_char lt s = false ->
            includes "@" s = false -> includes "http" s = false ->
            (20 < List.length (split " " s))%nat ->
            rawContent (VObj [(k, VStr s)]) = VStr (s ++ nlnl)
            /\ extractFullContent (VObj [(k, VStr s)])
               = Normal (VStr (paragraphs (s ++ nlnl))));
    [|split; [|split; [|split; [exact Hexample|]]]].
  4:{ intros k s Hk Hlen Hlt Hat Hhttp Hws Hwords.
      assert (Hpieces : (20 < List.length (split " " s))%nat).
      { pose proof (count_words_le_pieces false s Hws) as H.
        cbv iota in H. unfold word_count in Hwords. lia. }
      split; [exact Hpieces|]. now apply Hexample. }
  3: apply likely_strings_In.
  2:{ intros fd Hfd Hnone. unfold rawContent, scan.
      rewrite (probe_none fd contentFields Hnone). cbn [truthy String.eqb negb].
      now rewrite fold_scan_step. }
  intros k s Hk Hlen Hlt Hat Hhttp Hwords.
    assert (Hnone : forall k', In k' contentFields ->
                      truthy (get (VObj [(k, VStr s)]) k') = false).
    { intros k' Hin. rewrite get_single_other; [reflexivity|].
      intros ->. contradiction. }
    assert (Hlikely : isLikelyContent s = true).
    { unfold isLikelyContent. apply Nat.ltb_lt in Hwords.
      rewrite Hwords, Hat, Hhttp. cbn [negb andb]. apply orb_true_r. }
    assert (Hraw : rawContent (VObj [(k, VStr s)]) = VStr (s ++ nlnl)).
    { unfold rawContent, scan. rewrite (probe_none _ _ Hnone).
      cbn [truthy String.eqb negb Object_values map snd fold_left scan_step].
      rewrite Hlen, Hlikely. reflexivity. }
    split; [exact Hraw|].
    assert (Hne : s ++ nlnl <> EmptyString).
    { apply String.eqb_neq. apply append_not_empty. discriminate. }
    unfold extractFullContent. rewrite Hraw, (truthy_VStr _ Hne).
    cbn [truthy negb]. rewrite (processRichTextContent_VStr _ Hne).
    change "<" with (str1 lt). rewrite includes_str1, has_char_app, Hlt.
    cbn [has_char orb andb]. now rewrite convert_line_breaks_paragraphs.
Qed.

Lemma extractFullContent_heuristic_scan_witness :
  rawContent (VObj [("notes", VStr plain150)]) = VStr (plain150 ++ nlnl).
Proof.
  refine (proj1 (proj2 (proj2 (proj2 (proj2 extractFullContent_heuristic_scan))
                          "notes" plain150 _ eq_refl eq_refl eq_refl eq_refl
                          eq_refl _))).
  - simpl. intuition discriminate.
  - vm_compute. lia.
Defined.

(** C4, as the claim states it, fails: the heuristic does not count words
    and does not look for tags.  A 150-character string of 75 words
    separated by newlines, with no [<], [@] or [http], is not selected;
    a string of 101 spaces, which has no word at all, is; a paragraph of
    117 characters whose opening tag carries an attribute is not likely
    content, while a text that only ends with [<hr>] is. *)
Lemma heuristic_is_not_a_word_count :
  (String.length newline_words150 = 150%nat
   /\ has_char lt newline_words150 = false
   /\ includes "@" newline_words150 = false
   /\ includes "http" newline_words150 = false
   /\ word_count newline_words150 = 75%nat
   /\ rawContent (VObj [("notes", VStr newline_words150)]) = VStr EmptyString
   /\ extractFullContent (VObj [("notes", VStr newline_words150)])
      = Normal (VStr EmptyString))
  /\ (word_count spaces101 = 0%nat
      /\ rawContent (VObj [("notes", VStr spaces101)]) = VStr (spaces101 ++ nlnl))
  /\ (String.length classed_paragraph = 117%nat
      /\ isLikelyContent classed_paragraph = false)
  /\ (String.length ruled_text = 104%nat /\ isLikelyContent ruled_text = true)
  /\ ~ (forall k s,
          ~ In k contentFields ->
          String.length s = 150%nat ->
          has_char lt s = false ->
          includes "@" s = false -> includes "http" s = false ->
          (20 < word_count s)%nat ->
          rawContent (VObj [(k, VStr s)]) = VStr (s ++ nlnl)).
Proof.
  repeat split; try (vm_compute; reflexivity).
  intros H.
  assert (Hk : ~ In "notes" contentFields) by (simpl; intuition discriminate).
  specialize (H "notes" newline_words150 Hk eq_refl eq_refl eq_refl eq_refl).
  assert (Hw : (20 < word_count newline_words150)%nat) by (vm_compute; lia).
  specialize (H Hw). vm_compute in H. discriminate H.
Qed.

(* ------------------------------------------------------------------ *)
(** ** The feed renderer: results *)

Lemma bind_Normal {A B : Type} (c : completion A) (k : A -> completion B) (b : B) :
  bind c k = Normal b -> exists a, c = Normal a /\ k a = Normal b.
Proof.
  destruct c as [a|e]; simpl; [|discriminate]. intros H. now exists a.
Qed.

Lemma fieldData_opt_Normal (post fieldData : value) (name : string) :
  get_dot post "fieldData" = Normal fieldData ->
  fieldData_opt post name = Normal (get_opt fieldData name).
Proof. intros H. unfold fieldData_opt. now rewrite H. Qed.

Lemma or_lazy_fieldData (post fieldData : value) (a b : string) (r : value) :
  get_dot post "fieldData" = Normal fieldData ->
  or_lazy (get_opt fieldData a) (fieldData_opt post b) = Normal r ->
  r = or_else (get_opt fieldData a) (get_opt fieldData b).
Proof.
  intros Hfd. unfold or_lazy, or_else.
  rewrite (fieldData_opt_Normal _ _ b Hfd).
  destruct (truthy (get_opt fieldData a)); now intros [= <-].
Qed.

(** The item template ends with the description and the content. *)
Lemma itemTemplate_tail (title postUrl postDate author description content : string) :
  itemTemplate title postUrl postDate author description content
  = (lf ++ "    <item>" ++
     lf ++ "      <title>" ++ title ++ "</title>" ++
     lf ++ "      <link>" ++ postUrl ++ "</link>" ++
     lf ++ "      <guid isPermaLink=" ++ q ++ "true" ++ q ++ ">" ++ postUrl ++ "</guid>" ++
     lf ++ "      <pubDate>" ++ postDate ++ "</pubDate>" ++
     lf ++ "      " ++ (if String.eqb author EmptyString then EmptyString
                        else "<author>" ++ author ++ "</author>"))
    ++ lf ++ "      <description><![CDATA[" ++ description ++ "]]></description>"
    ++ lf ++ "      <content:encoded><![CDATA[" ++ content ++ "]]></content:encoded>"
    ++ lf ++ "    </item>".
Proof.
  unfold itemTemplate. now rewrite !append_assoc.
Qed.

(** C6.  In an item that is rendered, the description is the escaper's
    result on the first truthy of the fields [summary] and [excerpt] (the
    empty string when neither is), placed between [<![CDATA[] and []]>],
    so that it contains no raw [<] or [>]; the [content:encoded] element
    holds the extractor's result between the same marks, converted to text
    and nothing more, so a string result appears as it is.  A record whose
    [summary], [excerpt] and [content] fields are strings, the last one
    not empty, is rendered, with these two elements. *)
Theorem renderItem_description_escaped_content_raw (h : Host) (now : string) :
  (forall post xml,
     renderItem h now post = Normal xml ->
     exists fieldData description content content_text front,
       get_dot post "fieldData" = Normal fieldData
       /\ escapeXml (or_else (or_else (get_opt fieldData "summary")
                                      (get_opt fieldData "excerpt"))
                             (VStr EmptyString)) = Normal description
       /\ has_char lt description = false /\ has_char gt description = false
       /\ extractFullContent fieldData = Normal content
       /\ ToString content = Normal content_text
       /\ (forall s, content = VStr s -> content_text = s)
       /\ xml = front
                ++ lf ++ "      <description><![CDATA[" ++ description ++ "]]></description>"
                ++ lf ++ "      <content:encoded><![CDATA[" ++ content_text
                ++ "]]></content:encoded>"
                ++ lf ++ "    </item>")
  /\ (forall id summary excerpt body,
        body <> EmptyString ->
        renderItem h now
          (VObj [("id", VStr id);
                 ("fieldData", VObj [("summary", VStr summary);
                                     ("excerpt", VStr excerpt);
                                     ("content", VStr body)])])
        = Normal (itemTemplate "Untitled Post" (SITE_URL h ++ "/blog/" ++ id) now
                    EmptyString
                    (escape_each (if String.eqb summary EmptyString
                                  then excerpt else summary))
                    (if includes "<" body && includes ">" body then body
                     else paragraphs body))).
Proof.
  split.
  - intros post xml H. unfold renderItem in H.
    apply bind_Normal in H as (createdOn & _ & H).
    apply bind_Normal in H as (postDate & _ & H).
    apply bind_Normal in H as (slug & _ & H).
    apply bind_Normal in H as (slug_or_id & _ & H).
    apply bind_Normal in H as (tail & _ & H).
    apply bind_Normal in H as (name & _ & H).
    apply bind_Normal in H as (name_or_title & _ & H).
    apply bind_Normal in H as (title & _ & H).
    apply bind_Normal in H as (summary & Esum & H).
    apply bind_Normal in H as (summary_or_excerpt & Esoe & H).
    apply bind_Normal in H as (description & Edesc & H).
    apply bind_Normal in H as (fieldData & Efd & H).
    apply bind_Normal in H as (content & Econtent & H).
    apply bind_Normal in H as (author_field & _ & H).
    apply bind_Normal in H as (author & _ & H).
    apply bind_Normal in H as (content_text & Etext & H).
    injection H as <-.
    exists fieldData, description, content, content_text.
    eexists. repeat split.
    + assumption.
    + rewrite (fieldData_opt_Normal _ _ "summary" Efd) in Esum.
      injection Esum as <-.
      now rewrite <- (or_lazy_fieldData _ _ _ _ _ Efd Esoe).
    + apply (escapeXml_no_reserved _ _ lt Edesc). simpl. tauto.
    + apply (escapeXml_no_reserved _ _ gt Edesc). simpl. tauto.
    + assumption.
    + assumption.
    + intros s ->. simpl in Etext. now injection Etext.
    + apply itemTemplate_tail.
  - intros id summary excerpt body Hbody.
    unfold renderItem.
    cbn [get_dot get lookup String.eqb Ascii.eqb Bool.eqb truthy bind
         fieldData_opt get_opt or_lazy or_else ToString].
    assert (Hraw : rawContent (VObj [("summary", VStr summary);
                                     ("excerpt", VStr excerpt);
                                     ("content", VStr body)]) = VStr body).
    { unfold rawContent.
      change contentFields with ([] ++ "content" :: tl contentFields)%list.
      rewrite probe_first; [| intros ? [] |];
        cbn [get lookup String.eqb Ascii.eqb Bool.eqb];
        now rewrite (truthy_VStr body Hbody). }
    unfold extractFullContent. rewrite Hraw, (truthy_VStr body Hbody).
    cbn [truthy negb]. rewrite (processRichTextContent_VStr body Hbody).
    rewrite convert_line_breaks_paragraphs.
    rewrite !escapeXml_VStr. unfold or_lazy, or_else.
    destruct summary as [|c summary]; [destruct excerpt as [|c excerpt]|];
      cbn [truthy String.eqb negb bind ToString];
      rewrite !escapeXml_VStr; cbn [bind];
      rewrite !escape_chain_each; reflexivity.
Qed.

Lemma renderItem_description_escaped_content_raw_witness :
  (exists fieldData description content content_text front,
      get_dot sample_post "fieldData" = Normal fieldData
      /\ escapeXml (or_else (or_else (get_opt fieldData "summary")
                                     (get_opt fieldData "excerpt"))
                            (VStr EmptyString)) = Normal description
      /\ has_char lt description = false /\ has_char gt description = false
      /\ extractFullContent fieldData = Normal content
      /\ ToString content = Normal content_text
      /\ (forall s, content = VStr s -> content_text = s)
      /\ itemTemplate "A &amp; B" "https://yoursite.com/blog/first" "2024-05-01"
           EmptyString "x&lt;y &amp; z" "<p>Hi</p>"
         = front
           ++ lf ++ "      <description><![CDATA[" ++ description ++ "]]></description>"
           ++ lf ++ "      <content:encoded><![CDATA[" ++ content_text
           ++ "]]></content:encoded>"
           ++ lf ++ "    </item>")
  /\ renderItem (sample_host (Throw NetworkError)) "now"
       (VObj [("id", VStr "7");
              ("fieldData", VObj [("summary", VStr EmptyString);
                                  ("excerpt", VStr "a < b");
                                  ("content", VStr "<p>Hi</p>")])])
     = Normal (itemTemplate "Untitled Post" "https://yoursite.com/blog/7" "now"
                 EmptyString "a &lt; b" "<p>Hi</p>").
Proof.
  split.
  - apply (proj1 (renderItem_description_escaped_content_raw
                    (sample_host (Throw NetworkError)) "now") sample_post).
    reflexivity.
  - apply (proj2 (renderItem_description_escaped_content_raw
                    (sample_host (Throw NetworkError)) "now")
             "7" EmptyString "a < b" "<p>Hi</p>").
    discriminate.
Defined.

(** C7 fails on the code.  A record whose [content] field is the number
    42 makes the rendering throw: the candidate loop takes the number as
    the content without testing its type (the heuristic scan next to it
    does test [typeof value === 'string']), and [processRichTextContent]
    calls [includes] on it.  A [null] record throws as well, on
    [post.createdOn].  The whole feed is then lost. *)
Theorem renderItem_throws_on_numeric_content (h : Host) (now : string) :
  renderItem h now numeric_content_post = Throw TypeError
  /\ renderItem h now VNull = Throw TypeError
  /\ generateRSS h (VArr [numeric_content_post]) = Throw TypeError.
Proof. repeat split. Qed.

Lemma mapM_Forall2 {A B : Type} (f : A -> completion B) (xs : list A) (ys : list B) :
  mapM f xs = Normal ys <-> Forall2 (fun x y => f x = Normal y) xs ys.
Proof.
  revert ys. induction xs as [|x xs IH]; intros ys; simpl.
  - split.
    + intros [= <-]. constructor.
    + intros H. inversion H. reflexivity.
  - split.
    + intros H. apply bind_Normal in H as (y & Ey & H).
      apply bind_Normal in H as (ys' & Eys & H). injection H as <-.
      constructor; [assumption | now apply IH].
    + intros H. inversion H as [|x' y xs' ys' Hy Hys]; subst.
      rewrite Hy. cbn [bind]. apply IH in Hys. now rewrite Hys.
Qed.

Lemma renderItem_is_item (h : Host) (now : string) (post : value) (item : string) :
  renderItem h now post = Normal item ->
  startsWith (lf ++ "    <item>") item = true.
Proof.
  intros H. unfold renderItem in H.
  repeat (apply bind_Normal in H as (? & _ & H)).
  injection H as <-. reflexivity.
Qed.

Lemma occurrences_item_skip (x r : string) :
  has_char lt x = false ->
  occurrences "<item>" (x ++ r) = occurrences "<item>" r.
Proof.
  induction x as [|a x IH]; [reflexivity|].
  cbn [has_char]. intros H. apply orb_false_iff in H as [Ha Hx].
  change (String a x ++ r) with (String a (x ++ r)).
  cbn [occurrences startsWith]. rewrite (Ascii.eqb_sym "<"%char a).
  change "<"%char with lt. rewrite Ha. cbn [andb Nat.add]. now apply IH.
Qed.

Lemma generateRSS_VArr (h : Host) (posts : list value) :
  generateRSS h (VArr posts) =
  (items <- mapM (renderItem h (clock h)) posts ;;
   Normal (channelHead h (clock h) (escape_each (SITE_NAME h))
                       (escape_each (SITE_DESCRIPTION h))
           ++ String.concat EmptyString items ++ channelTail)).
Proof.
  unfold generateRSS. destruct (mapM _ posts) as [items|e]; [|reflexivity].
  cbn [bind]. rewrite !escapeXml_VStr. cbn [bind].
  now rewrite !escape_chain_each.
Qed.

(** C9.  For every array of records, the feed is rendered exactly when
    every record is, and the document is then the channel head, the items
    of the records one after the other in the order of the array (one
    per record, equal records giving equal items, each starting a new
    [<item>] element), and the channel tail.  The channel head is the XML
    declaration, the opening [<rss>] tag with the [content] and [atom]
    name spaces, the opening [<channel>] tag and the channel's [<title>],
    [<link>], [<description>], [<language>], [<lastBuildDate>] and
    [<atom:link>] elements; the channel tail closes [<channel>] and
    [<rss>].  For the empty array the document is this head directly
    followed by this tail: a complete envelope, which holds no [<item>]
    when the site URL and the date hold no [<]. *)
Theorem generateRSS_items_in_input_order (h : Host) (posts : list value) :
  let head :=
    "<?xml version=" ++ q ++ "1.0" ++ q ++ " encoding=" ++ q ++ "UTF-8" ++ q ++ "?>" ++
    lf ++ "<rss version=" ++ q ++ "2.0" ++ q ++ " " ++
    lf ++ "     xmlns:content=" ++ q ++ "http://purl.org/rss/1.0/modules/content/" ++ q ++
    lf ++ "     xmlns:atom=" ++ q ++ "http://www.w3.org/2005/Atom" ++ q ++ ">" ++
    lf ++ "  <channel>" ++
    lf ++ "    <title>" ++ escape_each (SITE_NAME h) ++ "</title>" ++
    lf ++ "    <link>" ++ SITE_URL h ++ "</link>" ++
    lf ++ "    <description>" ++ escape_each (SITE_DESCRIPTION h) ++ "</description>" ++
    lf ++ "    <language>en-us</language>" ++
    lf ++ "    <lastBuildDate>" ++ clock h ++ "</lastBuildDate>" ++
    lf ++ "    <atom:link href=" ++ q ++ SITE_URL h ++ "/api/rss" ++ q
       ++ " rel=" ++ q ++ "self" ++ q
       ++ " type=" ++ q ++ "application/rss+xml" ++ q ++ " />" ++
    lf ++ "    " in
  let tail := lf ++ "  </channel>" ++ lf ++ "</rss>" in
  (lf = String "010"%char EmptyString /\ q = String "034"%char EmptyString)
  /\ (forall doc,
     generateRSS h (VArr posts) = Normal doc <->
     exists items,
       Forall2 (fun post item => renderItem h (clock h) post = Normal item)
               posts items
       /\ doc = head ++ String.concat EmptyString items ++ tail)
  /\ (forall items,
        Forall2 (fun post item => renderItem h (clock h) post = Normal item)
                posts items ->
        List.length items = List.length posts
        /\ Forall (fun item => startsWith (lf ++ "    <item>") item = true) items)
  /\ generateRSS h (VArr []) = Normal (head ++ tail)
  /\ (has_char lt (SITE_URL h) = false -> has_char lt (clock h) = false ->
      occurrences "<item>" (head ++ tail) = 0%nat).
Proof.
  intros head tail.
  assert (Hhead : head = channelHead h (clock h) (escape_each (SITE_NAME h))
                                     (escape_each (SITE_DESCRIPTION h)))
    by reflexivity.
  assert (Htail : tail = channelTail) by reflexivity.
  clearbody head tail. subst head tail.
  split; [split; reflexivity|].
  split; [|split; [|split]].
  - intros doc. rewrite generateRSS_VArr. split.
    + intros H. apply bind_Normal in H as (items & E & H).
      injection H as <-. exists items. split; [|reflexivity].
      now apply mapM_Forall2.
    + intros (items & HF & ->). apply mapM_Forall2 in HF. now rewrite HF.
  - intros items HF. split.
    + symmetry. exact (Forall2_length HF).
    + induction HF as [|post item posts items Hi _ IH]; constructor.
      * exact (renderItem_is_item _ _ _ _ Hi).
      * exact IH.
  - now rewrite generateRSS_VArr.
  - intros Hurl Hclock.
    assert (Hname : has_char lt (escape_each (SITE_NAME h)) = false)
      by (apply escape_each_no_reserved; simpl; tauto).
    assert (Hdesc : has_char lt (escape_each (SITE_DESCRIPTION h)) = false)
      by (apply escape_each_no_reserved; simpl; tauto).
    unfold channelHead, channelTail. rewrite !append_assoc.
    unfold lf, q, str1.
    repeat (cbn [append occurrences startsWith Ascii.eqb Bool.eqb andb Nat.add
                 nl dquote];
            rewrite ?(occurrences_item_skip _ _ Hurl),
                    ?(occurrences_item_skip _ _ Hclock),
                    ?(occurrences_item_skip _ _ Hname),
                    ?(occurrences_item_skip _ _ Hdesc)).
    reflexivity.
Qed.

Lemma generateRSS_items_in_input_order_witness :
  generateRSS (sample_host (Throw NetworkError)) (VArr [sample_post; sample_post])
  = Normal (channelHead (sample_host (Throw NetworkError))
              "Mon, 02 Nov 2026 00:00:00 GMT" "Your Blog" "Latest blog posts"
            ++ (sample_item ++ sample_item) ++ channelTail)
  /\ occurrences "<item>"
       (channelHead (sample_host (Throw NetworkError))
          "Mon, 02 Nov 2026 00:00:00 GMT" "Your Blog" "Latest blog posts"
        ++ channelTail) = 0%nat.
Proof.
  split.
  - apply (proj1 (proj2 (generateRSS_items_in_input_order
                           (sample_host (Throw NetworkError))
                           [sample_post; sample_post]))).
    exists [sample_item; sample_item]. split; [|reflexivity].
    repeat constructor.
  - apply (proj2 (proj2 (proj2 (proj2 (generateRSS_items_in_input_order
                                         (sample_host (Throw NetworkError)) [])))));
      reflexivity.
Defined.

(* ------------------------------------------------------------------ *)
(** ** The fetcher and the handler: results *)

(** Building the request never throws: the environment holds strings. *)
Lemma fetchRequest_returns (h : Host) : exists rq, fetchRequest h = Normal rq.
Proof.
  unfold fetchRequest, fetchUrl, COLLECTION_ID, WEBFLOW_API_TOKEN, env.
  destruct (process_env h "WEBFLOW_COLLECTION_ID");
    destruct (process_env h "WEBFLOW_API_TOKEN"); cbn; eauto.
Qed.

(** C8, as the code has it.  Once the upstream has answered,
    [fetchWebflowPosts] throws the error whose message carries the
    upstream status and reason exactly when the status is not a success;
    and when the status is a success and the body is a JSON value other
    than [null] without an [items] field, it returns the empty array. *)
Theorem fetchWebflowPosts_error_iff_not_ok_and_empty_default
  (h : Host) (rq : request) (resp : response) :
  fetchRequest h = Normal rq ->
  fetch h rq = Normal resp ->
  (fetchWebflowPosts h
     = Throw (Error ("Webflow API error: " ++ num_to_string (status resp)
                     ++ " " ++ statusText resp))
   <-> ok resp = false)
  /\ (forall data,
        ok resp = true -> json resp = Some data -> nullish data = false ->
        get data "items" = VUndefined ->
        fetchWebflowPosts h = Normal (VArr [])).
Proof.
  intros Hrq Hresp. unfold fetchWebflowPosts. rewrite Hrq. cbn [bind].
  rewrite Hresp. cbn [bind]. split.
  - destruct (ok resp); cbn [negb]; split; intros H;
      try reflexivity; try discriminate H.
    destruct (json resp) as [data|]; cbn [bind] in H; [|discriminate H].
    destruct data; cbn [get_dot bind] in H; discriminate H.
  - intros data Hok Hjson Hnn Hitems. rewrite Hok, Hjson. cbn [negb bind].
    destruct data; try discriminate; cbn [get_dot bind]; now rewrite Hitems.
Qed.

Lemma fetchWebflowPosts_error_iff_not_ok_and_empty_default_witness :
  fetchWebflowPosts (sample_host (Normal forbidden))
    = Throw (Error "Webflow API error: 403 Forbidden")
  /\ fetchWebflowPosts (sample_host (Normal empty_object_body)) = Normal (VArr []).
Proof.
  split.
  - apply (proj1 (fetchWebflowPosts_error_iff_not_ok_and_empty_default
                    (sample_host (Normal forbidden)) sample_request forbidden
                    eq_refl eq_refl)).
    reflexivity.
  - apply (proj2 (fetchWebflowPosts_error_iff_not_ok_and_empty_default
                    (sample_host (Normal empty_object_body)) sample_request
                    empty_object_body eq_refl eq_refl)
             (VObj [])); reflexivity.
Defined.

(** C8, as the claim states it, fails: the JSON text [null] is a
    well-formed body without an [items] field, and reading [data.items]
    on it throws a [TypeError] instead of giving the empty array. *)
Lemma fetchWebflowPosts_throws_on_null_body :
  ok null_body = true
  /\ json null_body = Some VNull
  /\ fetchWebflowPosts (sample_host (Normal null_body)) = Throw TypeError
  /\ ~ (forall h rq resp data,
          fetchRequest h = Normal rq -> fetch h rq = Normal resp ->
          ok resp = true -> json resp = Some data ->
          get data "items" = VUndefined ->
          fetchWebflowPosts h = Normal (VArr [])).
Proof.
  repeat split.
  intros H.
  specialize (H (sample_host (Normal null_body)) sample_request null_body VNull
                eq_refl eq_refl eq_refl eq_refl eq_refl).
  discriminate H.
Qed.

Lemma handler_sent {Req : Type} (h : Host) (req : Req) (res : Res) :
  res_sent (handler h req res)
  = (res_sent res
     ++ [{| sent_status := match feed h with Normal _ => 200 | Throw _ => 500 end;
            sent_headers :=
              (res_headers res
               ++ [("Access-Control-Allow-Origin", "*")])
               ++ [("Content-Type", "application/rss+xml; charset=utf-8")];
            sent_body := match feed h with
                         | Normal rssXml => Text rssXml
                         | Throw _ => Json errorBody
                         end |}])%list.
Proof.
  unfold handler. destruct (feed h); reflexivity.
Qed.

(** C1.  Whatever the request, the handler writes exactly one response.
    When the fetch and the rendering both return, it has status 200 and
    the rendered document as its body.  When the fetch throws, or the
    rendering after it, it has status 500 and the JSON body whose only
    field [error] is [Failed to generate RSS feed]; that is so in
    particular when the upstream status is not a success, 403 included.
    The status is never anything but 200 or 500, and a text body is
    always the complete document. *)
Theorem handler_one_response_200_feed_or_500_error
  {Req : Type} (h : Host) (req : Req) (res : Res) :
  exists r,
    res_sent (handler h req res) = (res_sent res ++ [r])%list
    /\ (forall posts rssXml,
          fetchWebflowPosts h = Normal posts ->
          generateRSS h posts = Normal rssXml ->
          sent_status r = 200%Z /\ sent_body r = Text rssXml)
    /\ (forall e,
          fetchWebflowPosts h = Throw e ->
          sent_status r = 500%Z
          /\ sent_body r = Json (VObj [("error", VStr "Failed to generate RSS feed")]))
    /\ (forall posts e,
          fetchWebflowPosts h = Normal posts ->
          generateRSS h posts = Throw e ->
          sent_status r = 500%Z
          /\ sent_body r = Json (VObj [("error", VStr "Failed to generate RSS feed")]))
    /\ (forall rq resp,
          fetchRequest h = Normal rq -> fetch h rq = Normal resp ->
          ok resp = false ->
          sent_status r = 500%Z
          /\ sent_body r = Json (VObj [("error", VStr "Failed to generate RSS feed")]))
    /\ (sent_status r = 200%Z \/ sent_status r = 500%Z)
    /\ match sent_body r with
       | Text s => sent_status r = 200%Z /\ feed h = Normal s
       | Json v => sent_status r = 500%Z /\ v = errorBody
                   /\ exists e, feed h = Throw e
       end.
Proof.
  eexists. split; [apply handler_sent|]. cbn [sent_status sent_body].
  split; [|split; [|split; [|split; [|split]]]].
  - intros posts rssXml Hfetch Hrender. unfold feed.
    rewrite Hfetch. cbn [bind]. rewrite Hrender. now split.
  - intros e Hfetch. unfold feed. rewrite Hfetch. now split.
  - intros posts e Hfetch Hrender. unfold feed.
    rewrite Hfetch. cbn [bind]. rewrite Hrender. now split.
  - intros rq resp Hrq Hresp Hok. unfold feed, fetchWebflowPosts.
    rewrite Hrq. cbn [bind]. rewrite Hresp. cbn [bind]. rewrite Hok. now split.
  - destruct (feed h); [now left | now right].
  - destruct (feed h) as [s|e]; repeat split. now exists e.
Qed.

Lemma handler_one_response_200_feed_or_500_error_witness :
  exists r,
    res_sent (handler (sample_host (Normal forbidden)) tt fresh_res) = [r]
    /\ sent_status r = 500%Z
    /\ sent_body r = Json (VObj [("error", VStr "Failed to generate RSS feed")]).
Proof.
  destruct (handler_one_response_200_feed_or_500_error
              (sample_host (Normal forbidden)) tt fresh_res)
    as (r & Hsent & _ & _ & _ & H403 & _).
  exists r. split; [exact Hsent|].
  apply (H403 sample_request forbidden); reflexivity.
Defined.

(* ------------------------------------------------------------------ *)
(** ** More on the escaper *)

Lemma length_append (a b : string) :
  String.length (a ++ b) = (String.length a + String.length b)%nat.
Proof. induction a as [|x a IH]; simpl; [reflexivity | now rewrite IH]. Qed.

Lemma escape_each_app (a b : string) :
  escape_each (a ++ b) = escape_each a ++ escape_each b.
Proof.
  induction a as [|x a IH]; [reflexivity|].
  cbn [append escape_each]. now rewrite IH, append_assoc.
Qed.

Lemma entity_not_reserved (c : ascii) : reserved c = false -> entity c = str1 c.
Proof.
  unfold reserved, entity. intros H.
  repeat (apply orb_false_iff in H as [H ?]).
  now repeat match goal with E : Ascii.eqb _ _ = false |- _ => rewrite E; clear E end.
Qed.

Lemma entity_reserved (c : ascii) :
  reserved c = true ->
  has_char amp (entity c) = true /\ (4 <= String.length (entity c) <= 6)%nat.
Proof.
  unfold reserved, entity. intros H.
  destruct (Ascii.eqb c amp); [cbn; lia|].
  destruct (Ascii.eqb c lt); [cbn; lia|].
  destruct (Ascii.eqb c gt); [cbn; lia|].
  destruct (Ascii.eqb c dquote); [cbn; lia|].
  destruct (Ascii.eqb c squote); [cbn; lia|]. discriminate H.
Qed.

Lemma unescape_entity (c : ascii) (rest : string) :
  unescape_from 0 (entity c ++ rest) = String c (unescape_from 0 rest).
Proof.
  unfold entity.
  destruct (Ascii.eqb_spec c amp) as [->|Hamp]; [reflexivity|].
  destruct (Ascii.eqb_spec c lt) as [->|Hlt]; [reflexivity|].
  destruct (Ascii.eqb_spec c gt) as [->|Hgt]; [reflexivity|].
  destruct (Ascii.eqb_spec c dquote) as [->|Hdq]; [reflexivity|].
  destruct (Ascii.eqb_spec c squote) as [->|Hsq]; [reflexivity|].
  assert (E : Ascii.eqb "&"%char c = false).
  { apply Ascii.eqb_neq. intros H. apply Hamp. now rewrite <- H. }
  cbn [str1 append unescape_from startsWith]. now rewrite E.
Qed.

Lemma unescape_escape_each (s : string) : unescape (escape_each s) = s.
Proof.
  unfold unescape. induction s as [|c s IH]; [reflexivity|].
  cbn [escape_each]. now rewrite unescape_entity, IH.
Qed.

Lemma escape_each_length (s : string) :
  (String.length s <= String.length (escape_each s) <= 6 * String.length s)%nat
  /\ (needs_escape s = true -> String.length s < String.length (escape_each s))%nat.
Proof.
  induction s as [|c s [IH1 IH2]]; [cbn; split; [lia | discriminate]|].
  cbn [escape_each needs_escape String.length]. rewrite length_append.
  destruct (reserved c) eqn:E.
  - pose proof (proj2 (entity_reserved c E)). split; [lia|]. intros _. lia.
  - rewrite (entity_not_reserved c E). cbn [str1 String.length orb].
    split; [lia|]. intros H. apply IH2 in H. lia.
Qed.

Lemma escape_each_fixed (s : string) :
  escape_each s = s <-> needs_escape s = false.
Proof.
  split.
  - intros H. destruct (needs_escape s) eqn:E; [|reflexivity].
    apply (proj2 (escape_each_length s)) in E. rewrite H in E. lia.
  - induction s as [|c s IH]; [reflexivity|].
    cbn [needs_escape escape_each]. intros H.
    apply orb_false_iff in H as [Hc Hs].
    now rewrite (entity_not_reserved c Hc), (IH Hs).
Qed.

Lemma needs_escape_app (a b : string) :
  needs_escape (a ++ b) = needs_escape a || needs_escape b.
Proof.
  induction a as [|x a IH]; [reflexivity|].
  cbn [append needs_escape]. now rewrite IH, orb_assoc.
Qed.

Lemma needs_escape_entity (c : ascii) : needs_escape (entity c) = reserved c.
Proof.
  destruct (reserved c) eqn:E.
  - unfold reserved in E. unfold entity.
    destruct (Ascii.eqb c amp); [reflexivity|].
    destruct (Ascii.eqb c lt); [reflexivity|].
    destruct (Ascii.eqb c gt); [reflexivity|].
    destruct (Ascii.eqb c dquote); [reflexivity|].
    destruct (Ascii.eqb c squote); [reflexivity | discriminate E].
  - rewrite (entity_not_reserved c E). cbn [str1 needs_escape].
    now rewrite E.
Qed.

(** Escaping neither removes the need for escaping nor creates it. *)
Lemma needs_escape_escape_each (s : string) :
  needs_escape (escape_each s) = needs_escape s.
Proof.
  induction s as [|c s IH]; [reflexivity|].
  cbn [escape_each needs_escape].
  now rewrite needs_escape_app, needs_escape_entity, IH.
Qed.

(** X1.  On strings the escaper loses nothing: reading the five entities
    back gives the original text, so two different texts never have the
    same escaped form. *)
Theorem escapeXml_injective_on_strings (a b : string) :
  (exists t, escapeXml (VStr a) = Normal t /\ unescape t = a)
  /\ (escapeXml (VStr a) = escapeXml (VStr b) -> a = b).
Proof.
  rewrite !escapeXml_VStr, !escape_chain_each. split.
  - exists (escape_each a). split; [reflexivity | apply unescape_escape_each].
  - intros [= H]. rewrite <- (unescape_escape_each a), H.
    apply unescape_escape_each.
Qed.

Lemma escapeXml_injective_on_strings_witness : "a&b" = "a&b".
Proof.
  apply (proj2 (escapeXml_injective_on_strings "a&b" "a&b")). reflexivity.
Defined.

(** X2.  The escaper returns a string unchanged exactly when the string
    holds none of the five reserved characters; and escaping a second
    time changes the result exactly when the original held one of them
    (the ampersand of each entity is escaped again). *)
Theorem escapeXml_unchanged_iff_nothing_reserved (s : string) :
  (escapeXml (VStr s) = Normal s <-> needs_escape s = false)
  /\ (forall once twice,
        escapeXml (VStr s) = Normal once ->
        escapeXml (VStr once) = Normal twice ->
        (twice = once <-> needs_escape s = false)).
Proof.
  rewrite escapeXml_VStr, escape_chain_each. split.
  - rewrite <- escape_each_fixed. split; [now intros [= H] | now intros ->].
  - intros once twice [= <-]. rewrite escapeXml_VStr, escape_chain_each.
    intros [= <-]. now rewrite escape_each_fixed, needs_escape_escape_each.
Qed.

Lemma escapeXml_unchanged_iff_nothing_reserved_witness :
  "&amp;amp;" = "&amp;" <-> needs_escape "&" = false.
Proof.
  apply (proj2 (escapeXml_unchanged_iff_nothing_reserved "&") "&amp;" "&amp;amp;");
    reflexivity.
Defined.

(** X3.  The escaped form of a string is the concatenation of the escaped
    forms of its parts, it is never shorter than the string and never more
    than six times as long. *)
Theorem escapeXml_compositional_and_bounded (a b : string) :
  (exists ea eb,
     escapeXml (VStr a) = Normal ea /\ escapeXml (VStr b) = Normal eb
     /\ escapeXml (VStr (a ++ b)) = Normal (ea ++ eb))
  /\ (exists ea,
        escapeXml (VStr a) = Normal ea
        /\ (String.length a <= String.length ea <= 6 * String.length a)%nat).
Proof.
  rewrite !escapeXml_VStr, !escape_chain_each. split.
  - exists (escape_each a), (escape_each b). now rewrite escape_each_app.
  - exists (escape_each a). split; [reflexivity | apply escape_each_length].
Qed.

(* ------------------------------------------------------------------ *)
(** ** More on the content extractor *)

Lemma paragraphs_has_no_nl (s : string) : has_char nl (paragraphs s) = false.
Proof.
  rewrite <- convert_line_breaks_paragraphs. unfold convert_line_breaks.
  rewrite replaceAll_str1. now apply subst_char_removes.
Qed.

Lemma paragraphs_without_nl (s : string) :
  has_char nl s = false -> paragraphs s = s.
Proof.
  induction s as [|c s IH]; [reflexivity|].
  cbn [has_char paragraphs]. intros H. apply orb_false_iff in H as [Hc Hs].
  now rewrite Hc, (IH Hs).
Qed.

Lemma includes_needs_first_char (c : ascii) (rest s : string) :
  has_char c s = false -> includes (String c rest) s = false.
Proof.
  induction s as [|a s IH]; [reflexivity|].
  cbn [has_char]. intros H. apply orb_false_iff in H as [Ha Hs].
  change (includes (String c rest) (String a s))
    with (startsWith (String c rest) (String a s) || includes (String c rest) s).
  cbn [startsWith]. now rewrite (Ascii.eqb_sym c a), Ha, (IH Hs).
Qed.

(** X4.  Normalizing is idempotent: whatever [processRichTextContent]
    returns, it returns it unchanged when applied to it again. *)
Theorem processRichTextContent_idempotent (content result : value) :
  processRichTextContent content = Normal result ->
  processRichTextContent result = Normal result.
Proof.
  assert (Hstr : forall s, processRichTextContent (VStr s) = Normal result ->
                           processRichTextContent result = Normal result).
  { intros s. destruct (String.eqb_spec s EmptyString) as [->|Hs].
    - now intros [= <-].
    - rewrite (processRichTextContent_VStr s Hs).
      destruct (includes "<" s && includes ">" s) eqn:E.
      + intros [= <-]. rewrite (processRichTextContent_VStr s Hs). now rewrite E.
      + rewrite convert_line_breaks_paragraphs. intros [= <-].
        destruct (String.eqb_spec (paragraphs s) EmptyString) as [->|Hp];
          [reflexivity|].
        rewrite (processRichTextContent_VStr _ Hp), convert_line_breaks_paragraphs.
        rewrite (paragraphs_without_nl _ (paragraphs_has_no_nl s)).
        destruct (includes "<" (paragraphs s) && includes ">" (paragraphs s));
          reflexivity. }
  destruct content as [| |b|n|s|xs|ps]; try (now intros [= <-]).
  - destruct b; [discriminate | now intros [= <-]].
  - unfold processRichTextContent.
    destruct (truthy (VNum n)); cbn [negb]; [discriminate | now intros [= <-]].
  - apply Hstr.
  - unfold processRichTextContent. cbn [truthy negb call_includes bind].
    destruct (existsb _ xs) eqn:E1; cbn [bind]; [|discriminate].
    destruct (existsb _ xs) eqn:E2 in |- *; cbn [bind]; [|discriminate].
    intros [= <-]. cbn [truthy negb call_includes bind]. rewrite E1. cbn [bind].
    now rewrite E2.
Qed.

Lemma processRichTextContent_idempotent_witness :
  processRichTextContent (VStr ("a<br>b")) = Normal (VStr "a<br>b").
Proof.
  apply (processRichTextContent_idempotent (VStr ("a" ++ lf ++ "b"))).
  reflexivity.
Defined.

(** X5.  A non-empty string without a newline comes back unchanged,
    markup or not; and a returned string holds a newline only when the
    input was taken for markup (it contains both [<] and [>]) and passed
    through as it was. *)
Theorem processRichTextContent_newlines (s : string) :
  (s <> EmptyString -> has_char nl s = false ->
   processRichTextContent (VStr s) = Normal (VStr s))
  /\ (forall t,
        processRichTextContent (VStr s) = Normal (VStr t) ->
        has_char nl t = true ->
        t = s /\ includes "<" s = true /\ includes ">" s = true).
Proof.
  split.
  - intros Hs Hnl. rewrite (processRichTextContent_VStr s Hs).
    rewrite convert_line_breaks_paragraphs, (paragraphs_without_nl s Hnl).
    destruct (includes "<" s && includes ">" s); reflexivity.
  - intros t. destruct (String.eqb_spec s EmptyString) as [->|Hs].
    + intros [= <-]. discriminate.
    + rewrite (processRichTextContent_VStr s Hs).
      destruct (includes "<" s && includes ">" s) eqn:E.
      * intros [= <-] _. apply andb_true_iff in E. tauto.
      * rewrite convert_line_breaks_paragraphs. intros [= <-] H.
        rewrite paragraphs_has_no_nl in H. discriminate H.
Qed.

Lemma processRichTextContent_newlines_witness :
  processRichTextContent (VStr "no line break") = Normal (VStr "no line break").
Proof.
  apply (proj1 (processRichTextContent_newlines "no line break"));
    [discriminate | reflexivity].
Defined.

(** The loop leaves the empty string or the value of a candidate that is
    truthy. *)
Lemma probe_cases (fd : value) (names : list string) :
  probe fd names = VStr EmptyString
  \/ exists k, In k names /\ truthy (get fd k) = true /\ probe fd names = get fd k.
Proof.
  induction names as [|n names IH]; cbn [probe]; [now left|].
  destruct (truthy (get fd n)) eqn:E.
  - right. exists n. cbn [In]. auto.
  - destruct IH as [IH | (k & Hin & Hk & Hp)]; [now left|].
    right. exists k. cbn [In]. auto.
Qed.

Lemma rawContent_no_candidate (fd : value) :
  (forall k, In k contentFields -> truthy (get fd k) = false) ->
  rawContent fd
  = VStr (String.concat EmptyString
            (map (fun s => s ++ nlnl) (likely_strings (Object_values fd)))).
Proof.
  intros Hnone. unfold rawContent, scan.
  rewrite (probe_none fd contentFields Hnone). cbn [truthy String.eqb negb].
  now rewrite fold_scan_step.
Qed.

Lemma extractFullContent_outcomes (fieldData : value) :
  (forall e,
     extractFullContent fieldData = Throw e ->
     e = TypeError
     /\ exists k, In k contentFields /\ truthy (get fieldData k) = true
                  /\ is_string (get fieldData k) = false)
  /\ ((forall k, In k contentFields -> truthy (get fieldData k) = true ->
                 is_string (get fieldData k) = true) ->
      exists s, extractFullContent fieldData = Normal (VStr s)).
Proof.
  assert (Hstr : forall s, exists t, processRichTextContent (VStr s) = Normal (VStr t)).
  { intros s. destruct (String.eqb_spec s EmptyString) as [->|Hs]; [now eexists|].
    rewrite (processRichTextContent_VStr s Hs). now eexists. }
  unfold extractFullContent.
  destruct (truthy fieldData); cbn [negb];
    [|split; [now intros ? ? | now eexists]].
  unfold rawContent.
  destruct (probe_cases fieldData contentFields) as [Hp | (k & Hin & Hk & Hp)];
    rewrite Hp.
  - cbn [truthy String.eqb negb].
    destruct (Hstr (scan fieldData)) as (t & Ht). rewrite Ht.
    destruct (negb (String.eqb (scan fieldData) EmptyString));
      (split; [now intros ? ? | now eexists]).
  - rewrite Hk. cbn [negb]. rewrite Hk. split.
    + intros e He. destruct (get fieldData k) as [| |b|n|s|xs|ps] eqn:Eg;
        try discriminate Hk.
      * split; [|exists k; rewrite Eg; auto].
        unfold processRichTextContent in He. rewrite Hk in He. now injection He.
      * split; [|exists k; rewrite Eg; auto].
        unfold processRichTextContent in He. rewrite Hk in He. now injection He.
      * destruct (Hstr s) as (t & Ht). rewrite Ht in He. discriminate He.
      * split; [|exists k; rewrite Eg; auto].
        unfold processRichTextContent in He.
        cbn [truthy negb call_includes bind] in He.
        destruct (existsb _ xs) in He; cbn [bind] in He;
          [destruct (existsb _ xs) in He; cbn [bind] in He|];
          try discriminate He; now injection He.
      * split; [|exists k; rewrite Eg; auto]. now injection He.
    + intros Hall. specialize (Hall k Hin Hk).
      destruct (get fieldData k); try discriminate Hall. apply Hstr.
Qed.

(** X6.  The extractor throws only through a candidate field: when it
    throws, the error is a [TypeError] and some candidate field holds a
    truthy value that is not a string.  When every truthy candidate value
    is a string it returns, and what it returns is a string. *)
Theorem extractFullContent_throws_only_on_non_string_candidate (fieldData : value) :
  (forall e,
     extractFullContent fieldData = Throw e ->
     e = TypeError
     /\ exists k, In k contentFields /\ truthy (get fieldData k) = true
                  /\ is_string (get fieldData k) = false)
  /\ ((forall k, In k contentFields -> truthy (get fieldData k) = true ->
                 is_string (get fieldData k) = true) ->
      exists s, extractFullContent fieldData = Normal (VStr s)).
Proof. apply extractFullContent_outcomes. Qed.

Lemma extractFullContent_throws_only_on_non_string_candidate_witness :
  exists s, extractFullContent two_candidates = Normal (VStr s).
Proof.
  apply (proj2 (extractFullContent_throws_only_on_non_string_candidate two_candidates)).
  intros k [<-|[<-|[<-|[<-|[<-|[<-|[]]]]]]]; cbn; congruence.
Defined.

Lemma likely_strings_none (vs : list value) :
  (forall s, In (VStr s) vs ->
             (String.length s <= 100)%nat \/ isLikelyContent s = false) ->
  likely_strings vs = [].
Proof.
  intros H. destruct (likely_strings vs) as [|s l] eqn:E; [reflexivity|].
  assert (Hin : In s (likely_strings vs)) by (rewrite E; now left).
  apply likely_strings_In in Hin as (Hin & Hlen & Hlikely).
  destruct (H s Hin) as [Hle | Hno]; [lia | congruence].
Qed.

(** X7.  The extractor returns the empty string when there is nothing to
    take: for a falsy field mapping, and for a mapping in which no
    candidate field is truthy and every string value is at most 100
    characters long or fails the content heuristic. *)
Theorem extractFullContent_empty_when_nothing_qualifies (fieldData : value) :
  (truthy fieldData = false -> extractFullContent fieldData = Normal (VStr EmptyString))
  /\ ((forall k, In k contentFields -> truthy (get fieldData k) = false) ->
      (forall s, In (VStr s) (Object_values fieldData) ->
                 (String.length s <= 100)%nat \/ isLikelyContent s = false) ->
      extractFullContent fieldData = Normal (VStr EmptyString)).
Proof.
  unfold extractFullContent. split.
  - now intros ->.
  - intros Hnone Hshort.
    rewrite (rawContent_no_candidate fieldData Hnone).
    rewrite (likely_strings_none _ Hshort).
    now destruct (truthy fieldData).
Qed.

Lemma extractFullContent_empty_when_nothing_qualifies_witness :
  extractFullContent (VObj [("name", VStr "Hello"); ("views", VNum 12)])
  = Normal (VStr EmptyString).
Proof.
  apply (proj2 (extractFullContent_empty_when_nothing_qualifies
                  (VObj [("name", VStr "Hello"); ("views", VNum 12)]))).
  - intros k [<-|[<-|[<-|[<-|[<-|[<-|[]]]]]]]; reflexivity.
  - intros s [H|[H|[]]]; [injection H as <-; left; cbn; lia | discriminate H].
Defined.

Lemma concat_empty_cons (x : string) (l : list string) :
  String.concat EmptyString (x :: l) = x ++ String.concat EmptyString l.
Proof.
  destruct l; cbn [String.concat]; [now rewrite append_nil_r | reflexivity].
Qed.

Lemma paragraphs_block (s rest : string) :
  has_char nl s = false ->
  paragraphs (s ++ nlnl ++ rest) = s ++ "</p><p>" ++ paragraphs rest.
Proof.
  induction s as [|c s IH]; [reflexivity|].
  cbn [has_char]. intros H. apply orb_false_iff in H as [Hc Hs].
  change (String c s ++ nlnl ++ rest) with (String c (s ++ nlnl ++ rest)).
  cbn [paragraphs]. now rewrite Hc, (IH Hs).
Qed.

Lemma paragraphs_blocks (kept : list string) :
  Forall (fun s => has_char nl s = false) kept ->
  paragraphs (String.concat EmptyString (map (fun s => s ++ nlnl) kept))
  = String.concat EmptyString (map (fun s => s ++ "</p><p>") kept).
Proof.
  induction 1 as [|s kept Hs _ IH]; [reflexivity|].
  cbn [map]. rewrite !concat_empty_cons, !append_assoc.
  now rewrite (paragraphs_block s _ Hs), IH.
Qed.

Lemma has_char_blocks (c : ascii) (kept : list string) :
  c <> nl ->
  Forall (fun s => has_char c s = false) kept ->
  has_char c (String.concat EmptyString (map (fun s => s ++ nlnl) kept)) = false.
Proof.
  intros Hc. induction 1 as [|s kept Hs _ IH]; [reflexivity|].
  cbn [map]. rewrite concat_empty_cons, !has_char_app, Hs, IH.
  cbn [nlnl has_char orb]. apply Ascii.eqb_neq in Hc.
  now rewrite (Ascii.eqb_sym nl c), Hc.
Qed.

(** X8.  When the content comes from the heuristic scan and the kept
    strings are plain (no [<], no newline), the two newlines appended
    after each of them become a paragraph break: the result is the kept
    strings, each followed by [</p><p>], the last one included. *)
Theorem extractFullContent_scan_leaves_paragraph_breaks (fieldData : value) :
  truthy fieldData = true ->
  (forall k, In k contentFields -> truthy (get fieldData k) = false) ->
  Forall (fun s => has_char lt s = false /\ has_char nl s = false)
         (likely_strings (Object_values fieldData)) ->
  extractFullContent fieldData
  = Normal (VStr (String.concat EmptyString
                    (map (fun s => s ++ "</p><p>")
                         (likely_strings (Object_values fieldData))))).
Proof.
  intros Hfd Hnone Hplain. unfold extractFullContent.
  rewrite Hfd, (rawContent_no_candidate fieldData Hnone). cbn [negb].
  set (kept := likely_strings (Object_values fieldData)) in *.
  assert (Hlt : Forall (fun s => has_char lt s = false) kept)
    by (eapply Forall_impl; [|exact Hplain]; now intros s [? ?]).
  assert (Hnl : Forall (fun s => has_char nl s = false) kept)
    by (eapply Forall_impl; [|exact Hplain]; now intros s [? ?]).
  set (raw := String.concat EmptyString (map (fun s => s ++ nlnl) kept)).
  destruct (String.eqb_spec raw EmptyString) as [Hraw|Hraw].
  - rewrite Hraw. cbn [truthy String.eqb negb].
    destruct kept as [|s kept']; [reflexivity|].
    exfalso. unfold raw in Hraw. cbn [map] in Hraw.
    rewrite concat_empty_cons, append_assoc in Hraw.
    apply (f_equal String.length) in Hraw.
    rewrite !length_append in Hraw. cbn in Hraw. lia.
  - rewrite (truthy_VStr raw Hraw), (processRichTextContent_VStr raw Hraw).
    change "<" with (str1 lt). rewrite includes_str1.
    unfold raw at 1. rewrite (has_char_blocks lt kept); [|discriminate|exact Hlt].
    cbn [andb]. rewrite convert_line_breaks_paragraphs.
    unfold raw. now rewrite (paragraphs_blocks kept Hnl).
Qed.

Lemma extractFullContent_scan_leaves_paragraph_breaks_witness :
  extractFullContent (VObj [("notes", VStr plain150)])
  = Normal (VStr (plain150 ++ "</p><p>")).
Proof.
  apply (extractFullContent_scan_leaves_paragraph_breaks
           (VObj [("notes", VStr plain150)]) eq_refl).
  - intros k [<-|[<-|[<-|[<-|[<-|[<-|[]]]]]]]; reflexivity.
  - repeat constructor.
Defined.

Lemma split_length (sep : ascii) (s : string) :
  List.length (split sep s) = S (count_char sep s).
Proof.
  induction s as [|c s IH]; [reflexivity|].
  cbn [split count_char]. destruct (Ascii.eqb c sep).
  - cbn [List.length]. now rewrite IH.
  - destruct (split sep s) as [|p ps]; [discriminate IH|].
    cbn [List.length] in *. lia.
Qed.

(** X9.  The word test of the heuristic counts spaces: [str.split(' ')]
    has one piece more than the string has spaces.  So a string without
    [<] is likely content exactly when it holds at least 20 spaces and
    neither [@] nor [http], whatever else it contains. *)
Theorem isLikelyContent_counts_spaces (str : string) :
  List.length (split " " str) = S (count_char " " str)
  /\ (has_char lt str = false ->
      (isLikelyContent str = true <->
       (20 <= count_char " " str)%nat
       /\ includes "@" str = false /\ includes "http" str = false)).
Proof.
  split; [apply split_length|].
  intros Hlt. unfold isLikelyContent.
  rewrite !(includes_needs_first_char lt _ str Hlt), split_length.
  cbn [orb]. rewrite !andb_true_iff, !negb_true_iff, Nat.ltb_lt.
  intuition lia.
Qed.

Lemma isLikelyContent_counts_spaces_witness :
  isLikelyContent plain150 = true <->
  (20 <= count_char " " plain150)%nat
  /\ includes "@" plain150 = false /\ includes "http" plain150 = false.
Proof.
  apply (proj2 (isLikelyContent_counts_spaces plain150)). reflexivity.
Defined.

(* ------------------------------------------------------------------ *)
(** ** More on the feed renderer *)

Lemma get_dot_not_nullish (v : value) (k : string) :
  nullish v = false -> get_dot v k = Normal (get v k).
Proof. destruct v; (discriminate || reflexivity). Qed.

Lemma or_lazy_Normal (a b : value) : or_lazy a (Normal b) = Normal (or_else a b).
Proof. unfold or_lazy, or_else. now destruct (truthy a). Qed.

(** The steps of the [map] callback on a record that is neither [null]
    nor [undefined], each property read done. *)
Lemma renderItem_steps (h : Host) (now : string) (post : value) :
  nullish post = false ->
  renderItem h now post =
  (postDate <- (if truthy (get post "createdOn")
                then new_Date_toUTCString h (get post "createdOn")
                else Normal now) ;;
   tail <- ToString (or_else (get_opt (get post "fieldData") "slug")
                             (get post "id")) ;;
   title <- escapeXml (or_else (or_else (get_opt (get post "fieldData") "name")
                                        (get_opt (get post "fieldData") "title"))
                               (VStr "Untitled Post")) ;;
   description <- escapeXml (or_else (or_else (get_opt (get post "fieldData") "summary")
                                              (get_opt (get post "fieldData") "excerpt"))
                                     (VStr EmptyString)) ;;
   content <- extractFullContent (get post "fieldData") ;;
   author <- escapeXml (or_else (get_opt (get post "fieldData") "author")
                                (VStr EmptyString)) ;;
   content_text <- ToString content ;;
   Normal (itemTemplate title (SITE_URL h ++ "/blog/" ++ tail) postDate
                        author description content_text)).
Proof.
  intros Hpost. unfold renderItem, fieldData_opt.
  rewrite !(get_dot_not_nullish post _ Hpost). cbn [bind].
  rewrite !or_lazy_Normal. cbn [bind]. reflexivity.
Qed.

Lemma renderItem_nullish (h : Host) (now : string) (post : value) :
  nullish post = true -> renderItem h now post = Throw TypeError.
Proof. destruct post; (discriminate || reflexivity). Qed.

(** What a rendered item is made of. *)
Lemma renderItem_inv (h : Host) (now : string) (post : value) (xml : string) :
  renderItem h now post = Normal xml ->
  exists postDate tail title description content author content_text,
    (if truthy (get post "createdOn")
     then new_Date_toUTCString h (get post "createdOn")
     else Normal now) = Normal postDate
    /\ ToString (or_else (get_opt (get post "fieldData") "slug") (get post "id"))
       = Normal tail
    /\ escapeXml (or_else (or_else (get_opt (get post "fieldData") "name")
                                   (get_opt (get post "fieldData") "title"))
                          (VStr "Untitled Post")) = Normal title
    /\ escapeXml (or_else (or_else (get_opt (get post "fieldData") "summary")
                                   (get_opt (get post "fieldData") "excerpt"))
                          (VStr EmptyString)) = Normal description
    /\ extractFullContent (get post "fieldData") = Normal content
    /\ escapeXml (or_else (get_opt (get post "fieldData") "author")
                          (VStr EmptyString)) = Normal author
    /\ ToString content = Normal content_text
    /\ xml = itemTemplate title (SITE_URL h ++ "/blog/" ++ tail) postDate
                          author description content_text.
Proof.
  destruct (nullish post) eqn:Hpost.
  - rewrite (renderItem_nullish h now post Hpost). discriminate.
  - rewrite (renderItem_steps h now post Hpost). intros H.
    apply bind_Normal in H as (postDate & E1 & H).
    apply bind_Normal in H as (tail & E2 & H).
    apply bind_Normal in H as (title & E3 & H).
    apply bind_Normal in H as (description & E4 & H).
    apply bind_Normal in H as (content & E5 & H).
    apply bind_Normal in H as (author & E6 & H).
    apply bind_Normal in H as (content_text & E7 & H).
    injection H as <-.
    exists postDate, tail, title, description, content, author, content_text.
    repeat split; assumption.
Qed.

Lemma ToString_primitive (v : value) :
  is_primitive v = true -> exists s, ToString v = Normal s.
Proof. destruct v; try discriminate; intros _; cbn; eauto. Qed.

Lemma escapeXml_primitive (v : value) :
  is_primitive v = true -> exists s, escapeXml v = Normal s.
Proof.
  intros Hp. unfold escapeXml.
  destruct (truthy v) eqn:Ht; cbn [negb]; [|now eexists].
  destruct v; try discriminate Hp; try discriminate Ht;
    cbn [call_toString ToString bind]; now eexists.
Qed.

Lemma new_Date_primitive (h : Host) (v : value) :
  is_primitive v = true -> exists s, new_Date_toUTCString h v = Normal s.
Proof. destruct v; try discriminate; intros _; cbn; eauto. Qed.

Lemma or_else_primitive (a b : value) :
  is_primitive a = true -> is_primitive b = true ->
  is_primitive (or_else a b) = true.
Proof. unfold or_else. now destruct (truthy a). Qed.

Lemma lookup_string_valued (fields : list (string * value)) (k : string) :
  forallb is_string (map snd fields) = true ->
  is_primitive (get (VObj fields) k) = true
  /\ (truthy (get (VObj fields) k) = true -> is_string (get (VObj fields) k) = true).
Proof.
  cbn [get]. induction fields as [|[k' v] fields IH]; cbn [map snd forallb lookup].
  - now split.
  - intros H. apply andb_true_iff in H as [Hv Hrest].
    destruct (String.eqb k k'); [|now apply IH].
    destruct v; try discriminate Hv. now split.
Qed.

(** The fields of a plain record read as primitive values, and its
    content is extracted without error. *)
Lemma plain_record_fields (post : value) :
  plain_record post = true ->
  nullish post = false
  /\ is_primitive (get post "createdOn") = true
  /\ is_primitive (get post "id") = true
  /\ (forall k, is_primitive (get_opt (get post "fieldData") k) = true)
  /\ exists s, extractFullContent (get post "fieldData") = Normal (VStr s).
Proof.
  destruct post as [| | | | | |pps]; try discriminate.
  unfold plain_record. intros H.
  apply andb_true_iff in H as [H Hfd]. apply andb_true_iff in H as [Hc Hid].
  repeat split; try assumption.
  - intros k. destruct (get (VObj pps) "fieldData") as [| | | | | |fields];
      try discriminate Hfd; [reflexivity|].
    cbn [get_opt]. now apply lookup_string_valued.
  - destruct (get (VObj pps) "fieldData") as [| | | | | |fields];
      try discriminate Hfd; [now eexists|].
    apply extractFullContent_outcomes. intros k _.
    now apply lookup_string_valued.
Qed.

Lemma renderItem_plain_record (h : Host) (now : string) (post : value) :
  plain_record post = true -> exists xml, renderItem h now post = Normal xml.
Proof.
  intros H. apply plain_record_fields in H as (Hn & Hc & Hid & Hf & (body & Hbody)).
  rewrite (renderItem_steps h now post Hn).
  assert (Hdate : exists d, (if truthy (get post "createdOn")
                             then new_Date_toUTCString h (get post "createdOn")
                             else Normal now) = Normal d).
  { destruct (truthy _); [now apply new_Date_primitive | eauto]. }
  destruct Hdate as (d & ->).
  destruct (ToString_primitive _ (or_else_primitive _ _ (Hf "slug") Hid)) as (t & ->).
  destruct (escapeXml_primitive
              (or_else (or_else (get_opt (get post "fieldData") "name")
                                (get_opt (get post "fieldData") "title"))
                       (VStr "Untitled Post"))) as (ti & ->).
  { repeat apply or_else_primitive; auto. }
  destruct (escapeXml_primitive
              (or_else (or_else (get_opt (get post "fieldData") "summary")
                                (get_opt (get post "fieldData") "excerpt"))
                       (VStr EmptyString))) as (de & ->).
  { repeat apply or_else_primitive; auto. }
  rewrite Hbody.
  destruct (escapeXml_primitive
              (or_else (get_opt (get post "fieldData") "author")
                       (VStr EmptyString))) as (au & ->).
  { repeat apply or_else_primitive; auto. }
  cbn [bind ToString]. eauto.
Qed.

(** X10.  A record as the CMS delivers it is always rendered: when the
    record is an object, [createdOn] and [id] are primitive values or
    absent, and [fieldData] is absent or holds strings only, the [map]
    callback returns an item, which starts a new [<item>] element. *)
Theorem renderItem_returns_on_plain_record (h : Host) (now : string) (post : value) :
  plain_record post = true ->
  exists xml, renderItem h now post = Normal xml
              /\ startsWith (lf ++ "    <item>") xml = true.
Proof.
  intros H. destruct (renderItem_plain_record h now post H) as (xml & Hxml).
  exists xml. split; [exact Hxml|]. exact (renderItem_is_item _ _ _ _ Hxml).
Qed.

Lemma renderItem_returns_on_plain_record_witness :
  exists xml, renderItem (sample_host (Throw NetworkError)) "now" sample_post = Normal xml
              /\ startsWith (lf ++ "    <item>") xml = true.
Proof.
  apply (renderItem_returns_on_plain_record
           (sample_host (Throw NetworkError)) "now" sample_post).
  reflexivity.
Defined.

(** X11.  The link of an item, used for [<link>] and [<guid>] alike, is
    the site URL, [/blog/] and then the slug converted to text whenever
    the slug is truthy (a non-empty string slug is taken as it is, without
    escaping; a non-zero number is printed, so the slug 12 gives [/blog/12] whatever
    the [id]), and the
    record's [id] converted to text when the slug is falsy; a record with
    a falsy slug and no [id] gets a link that ends with
    [/blog/undefined]. *)
Theorem renderItem_link_slug_else_id (h : Host) (now : string) (post : value) (xml : string) :
  renderItem h now post = Normal xml ->
  exists tail title postDate author description content,
    xml = itemTemplate title (SITE_URL h ++ "/blog/" ++ tail) postDate
                       author description content
    /\ (truthy (get_opt (get post "fieldData") "slug") = true ->
        ToString (get_opt (get post "fieldData") "slug") = Normal tail)
    /\ (forall s, get_opt (get post "fieldData") "slug" = VStr s ->
                  s <> EmptyString -> tail = s)
    /\ (forall n, get_opt (get post "fieldData") "slug" = VNum n ->
                  n <> 0%Z -> tail = num_to_string n)
    /\ (truthy (get_opt (get post "fieldData") "slug") = false ->
        ToString (get post "id") = Normal tail)
    /\ (truthy (get_opt (get post "fieldData") "slug") = false ->
        get post "id" = VUndefined -> tail = "undefined").
Proof.
  intros H. apply renderItem_inv in H
    as (postDate & tail & title & description & content & author & content_text
        & _ & Htail & _ & _ & _ & _ & _ & ->).
  exists tail, title, postDate, author, description, content_text.
  split; [reflexivity|]. unfold or_else in Htail. repeat split.
  - intros Ht. now rewrite Ht in Htail.
  - intros s Hs Hne. rewrite Hs, (truthy_VStr s Hne) in Htail. now injection Htail.
  - intros n Hs Hn. rewrite Hs in Htail. cbn [truthy] in Htail.
    apply Z.eqb_neq in Hn. rewrite Hn in Htail. cbn [negb ToString] in Htail.
    now injection Htail.
  - intros Hf. now rewrite Hf in Htail.
  - intros Hf Hid. rewrite Hf, Hid in Htail. now injection Htail.
Qed.

Lemma renderItem_link_slug_else_id_witness :
  (exists tail title postDate author description content,
     sample_item = itemTemplate title
                     (SITE_URL (sample_host (Throw NetworkError)) ++ "/blog/" ++ tail)
                     postDate author description content
     /\ (truthy (get_opt (get sample_post "fieldData") "slug") = true ->
         ToString (get_opt (get sample_post "fieldData") "slug") = Normal tail)
     /\ (forall s, get_opt (get sample_post "fieldData") "slug" = VStr s ->
                   s <> EmptyString -> tail = s)
     /\ (forall n, get_opt (get sample_post "fieldData") "slug" = VNum n ->
                   n <> 0%Z -> tail = num_to_string n)
     /\ (truthy (get_opt (get sample_post "fieldData") "slug") = false ->
         ToString (get sample_post "id") = Normal tail)
     /\ (truthy (get_opt (get sample_post "fieldData") "slug") = false ->
         get sample_post "id" = VUndefined -> tail = "undefined"))
  /\ (exists tail title postDate author description content,
        itemTemplate "Untitled Post" "https://yoursite.com/blog/12" "now"
                     EmptyString EmptyString EmptyString
        = itemTemplate title
            (SITE_URL (sample_host (Throw NetworkError)) ++ "/blog/" ++ tail)
            postDate author description content
        /\ tail = "12").
Proof.
  split.
  - apply (renderItem_link_slug_else_id (sample_host (Throw NetworkError))
             "now" sample_post sample_item).
    reflexivity.
  - destruct (renderItem_link_slug_else_id (sample_host (Throw NetworkError))
                "now" numeric_slug_post
                (itemTemplate "Untitled Post" "https://yoursite.com/blog/12" "now"
                              EmptyString EmptyString EmptyString) eq_refl)
      as (tail & title & postDate & author & description & content
          & Hxml & _ & _ & H12 & _).
    exists tail, title, postDate, author, description, content.
    split; [exact Hxml|]. now apply (H12 12%Z).
Defined.

(** X12.  The date of an item is the render time, the same for every
    item of a feed, whenever [createdOn] is falsy (absent, [null], [0],
    the empty string); a non-empty string in [createdOn] is handed to
    [Date] and the item carries its UTC form. *)
Theorem renderItem_pubDate_falls_back_to_now
  (h : Host) (now : string) (post : value) (xml : string) :
  renderItem h now post = Normal xml ->
  exists postDate title url author description content,
    xml = itemTemplate title url postDate author description content
    /\ (truthy (get post "createdOn") = false -> postDate = now)
    /\ (forall s, get post "createdOn" = VStr s -> s <> EmptyString ->
                  postDate = utc_of_text h s).
Proof.
  intros H. apply renderItem_inv in H
    as (postDate & tail & title & description & content & author & content_text
        & Hdate & _ & _ & _ & _ & _ & _ & ->).
  exists postDate, title, (SITE_URL h ++ "/blog/" ++ tail), author, description,
         content_text.
  split; [reflexivity|]. split.
  - intros Hf. rewrite Hf in Hdate. now injection Hdate.
  - intros s Hs Hne. rewrite Hs, (truthy_VStr s Hne) in Hdate.
    cbn in Hdate. now injection Hdate.
Qed.

Lemma renderItem_pubDate_falls_back_to_now_witness :
  exists postDate title url author description content,
    itemTemplate "Untitled Post" "https://yoursite.com/blog/1" "now" EmptyString
                 EmptyString EmptyString
    = itemTemplate title url postDate author description content
    /\ (truthy (get (VObj [("id", VNum 1)]) "createdOn") = false -> postDate = "now")
    /\ (forall s, get (VObj [("id", VNum 1)]) "createdOn" = VStr s ->
                  s <> EmptyString ->
                  postDate = utc_of_text (sample_host (Throw NetworkError)) s).
Proof.
  apply (renderItem_pubDate_falls_back_to_now (sample_host (Throw NetworkError))
           "now" (VObj [("id", VNum 1)])).
  reflexivity.
Defined.

(** X13.  The title of an item is the escaped [name] when [name] is a
    non-empty string, whatever [title] holds, and the placeholder
    [Untitled Post] when both are falsy.  When the [author] field is falsy
    the item has no [<author>] element: the line between the date and the
    description is left blank. *)
Theorem renderItem_title_and_author (h : Host) (now : string) (post : value) (xml : string) :
  renderItem h now post = Normal xml ->
  exists title url postDate author description content,
    xml = itemTemplate title url postDate author description content
    /\ (forall s, get_opt (get post "fieldData") "name" = VStr s ->
                  s <> EmptyString -> title = escape_each s)
    /\ (truthy (get_opt (get post "fieldData") "name") = false ->
        truthy (get_opt (get post "fieldData") "title") = false ->
        title = "Untitled Post")
    /\ (truthy (get_opt (get post "fieldData") "author") = false ->
        xml = lf ++ "    <item>" ++
              lf ++ "      <title>" ++ title ++ "</title>" ++
              lf ++ "      <link>" ++ url ++ "</link>" ++
              lf ++ "      <guid isPermaLink=" ++ q ++ "true" ++ q ++ ">" ++ url ++ "</guid>" ++
              lf ++ "      <pubDate>" ++ postDate ++ "</pubDate>" ++
              lf ++ "      " ++
              lf ++ "      <description><![CDATA[" ++ description ++ "]]></description>" ++
              lf ++ "      <content:encoded><![CDATA[" ++ content ++ "]]></content:encoded>" ++
              lf ++ "    </item>").
Proof.
  intros H. apply renderItem_inv in H
    as (postDate & tail & title & description & content & author & content_text
        & _ & _ & Htitle & _ & _ & Hauthor & _ & ->).
  exists title, (SITE_URL h ++ "/blog/" ++ tail), postDate, author, description,
         content_text.
  split; [reflexivity|]. unfold or_else in Htitle, Hauthor. repeat split.
  - intros s Hs Hne. rewrite Hs, !(truthy_VStr s Hne) in Htitle.
    rewrite escapeXml_VStr, escape_chain_each in Htitle. now injection Htitle.
  - intros Hn Ht. rewrite Hn, Ht in Htitle. cbn in Htitle. now injection Htitle.
  - intros Ha. rewrite Ha in Hauthor. cbn in Hauthor. injection Hauthor as <-.
    reflexivity.
Qed.

Lemma renderItem_title_and_author_witness :
  exists title url postDate author description content,
    sample_item = itemTemplate title url postDate author description content
    /\ (forall s, get_opt (get sample_post "fieldData") "name" = VStr s ->
                  s <> EmptyString -> title = escape_each s)
    /\ (truthy (get_opt (get sample_post "fieldData") "name") = false ->
        truthy (get_opt (get sample_post "fieldData") "title") = false ->
        title = "Untitled Post")
    /\ (truthy (get_opt (get sample_post "fieldData") "author") = false ->
        sample_item
        = lf ++ "    <item>" ++
          lf ++ "      <title>" ++ title ++ "</title>" ++
          lf ++ "      <link>" ++ url ++ "</link>" ++
          lf ++ "      <guid isPermaLink=" ++ q ++ "true" ++ q ++ ">" ++ url ++ "</guid>" ++
          lf ++ "      <pubDate>" ++ postDate ++ "</pubDate>" ++
          lf ++ "      " ++
          lf ++ "      <description><![CDATA[" ++ description ++ "]]></description>" ++
          lf ++ "      <content:encoded><![CDATA[" ++ content ++ "]]></content:encoded>" ++
          lf ++ "    </item>").
Proof.
  apply (renderItem_title_and_author (sample_host (Throw NetworkError))
           "now" sample_post sample_item).
  reflexivity.
Defined.

Lemma mapM_stops_at_first_throw {A B : Type} (f : A -> completion B)
  (good rest : list A) (bad : A) (e : exn) :
  Forall (fun x => returns (f x) = true) good ->
  f bad = Throw e ->
  mapM f (good ++ bad :: rest)%list = Throw e.
Proof.
  intros Hgood Hbad. induction Hgood as [|x good Hx _ IH]; cbn [app mapM].
  - now rewrite Hbad.
  - destruct (f x); [|discriminate Hx]. cbn [bind]. now rewrite IH.
Qed.

(** X14.  One record that cannot be rendered loses the whole feed:
    [generateRSS] throws the error of the first such record, whatever the
    other records are, and returns no document. *)
Theorem generateRSS_throws_at_first_bad_record
  (h : Host) (good rest : list value) (bad : value) (e : exn) :
  Forall (fun post => returns (renderItem h (clock h) post) = true) good ->
  renderItem h (clock h) bad = Throw e ->
  generateRSS h (VArr (good ++ bad :: rest)%list) = Throw e.
Proof.
  intros Hgood Hbad. rewrite generateRSS_VArr.
  now rewrite (mapM_stops_at_first_throw _ good rest bad e Hgood Hbad).
Qed.

Lemma generateRSS_throws_at_first_bad_record_witness :
  generateRSS (sample_host (Throw NetworkError))
    (VArr [sample_post; numeric_content_post; sample_post])
  = Throw TypeError.
Proof.
  apply (generateRSS_throws_at_first_bad_record (sample_host (Throw NetworkError))
           [sample_post] [sample_post] numeric_content_post TypeError).
  - repeat constructor.
  - reflexivity.
Defined.

(* ------------------------------------------------------------------ *)
(** ** More on the fetcher, the handler and the test function *)

(** What the fetcher returns once the upstream has answered with success
    and a JSON body that is not [null]. *)
Lemma fetchWebflowPosts_ok (h : Host) (rq : request) (resp : response) (data : value) :
  fetchRequest h = Normal rq -> fetch h rq = Normal resp ->
  ok resp = true -> json resp = Some data -> nullish data = false ->
  fetchWebflowPosts h = Normal (or_else (get data "items") (VArr [])).
Proof.
  intros Hrq Hresp Hok Hjson Hdata. unfold fetchWebflowPosts.
  rewrite Hrq. cbn [bind]. rewrite Hresp. cbn [bind].
  rewrite Hok, Hjson. cbn [negb bind].
  now rewrite (get_dot_not_nullish data "items" Hdata).
Qed.

Lemma generateRSS_not_array (h : Host) (posts : value) :
  is_array posts = false -> generateRSS h posts = Throw TypeError.
Proof. destruct posts; (discriminate || reflexivity). Qed.

Lemma generateRSS_plain_records (h : Host) (posts : list value) :
  Forall (fun post => plain_record post = true) posts ->
  exists items,
    Forall2 (fun post item => renderItem h (clock h) post = Normal item) posts items
    /\ generateRSS h (VArr posts)
       = Normal (channelHead h (clock h) (escape_each (SITE_NAME h))
                             (escape_each (SITE_DESCRIPTION h))
                 ++ String.concat EmptyString items ++ channelTail).
Proof.
  intros Hplain.
  assert (Hitems : exists items,
            Forall2 (fun post item => renderItem h (clock h) post = Normal item)
                    posts items).
  { induction Hplain as [|post posts Hp _ (items & IH)]; [exists []; constructor|].
    destruct (renderItem_plain_record h (clock h) post Hp) as (item & Hitem).
    exists (item :: items). now constructor. }
  destruct Hitems as (items & HF). exists items. split; [exact HF|].
  rewrite generateRSS_VArr. apply mapM_Forall2 in HF. now rewrite HF.
Qed.

(** X15.  When the upstream answers with success and a JSON body (other
    than [null]) whose [items] field is falsy (absent, [null], [0],
    [false], the empty string), the handler answers 200 with the empty
    channel: the channel head directly followed by the channel tail,
    under the two headers set at the start. *)
Theorem handler_empty_channel_when_items_falsy
  {Req : Type} (h : Host) (req : Req) (res : Res)
  (rq : request) (resp : response) (data : value) :
  fetchRequest h = Normal rq -> fetch h rq = Normal resp ->
  ok resp = true -> json resp = Some data -> nullish data = false ->
  truthy (get data "items") = false ->
  res_sent (handler h req res)
  = (res_sent res
     ++ [{| sent_status := 200;
            sent_headers :=
              (res_headers res ++ [("Access-Control-Allow-Origin", "*")])
              ++ [("Content-Type", "application/rss+xml; charset=utf-8")];
            sent_body :=
              Text (channelHead h (clock h) (escape_each (SITE_NAME h))
                                (escape_each (SITE_DESCRIPTION h))
                    ++ channelTail) |}])%list
  /\ res_console (handler h req res) = res_console res.
Proof.
  intros Hrq Hresp Hok Hjson Hdata Hitems.
  assert (Hfeed : feed h = Normal (channelHead h (clock h) (escape_each (SITE_NAME h))
                                               (escape_each (SITE_DESCRIPTION h))
                                   ++ channelTail)).
  { unfold feed. rewrite (fetchWebflowPosts_ok h rq resp data Hrq Hresp Hok Hjson Hdata).
    unfold or_else. rewrite Hitems. cbn [bind]. now rewrite generateRSS_VArr. }
  rewrite handler_sent. unfold handler. now rewrite Hfeed.
Qed.

Lemma handler_empty_channel_when_items_falsy_witness :
  res_console (handler (sample_host (Normal empty_object_body)) tt fresh_res) = [].
Proof.
  apply (proj2 (handler_empty_channel_when_items_falsy
                  (sample_host (Normal empty_object_body)) tt fresh_res
                  sample_request empty_object_body (VObj [])
                  eq_refl eq_refl eq_refl eq_refl eq_refl eq_refl)).
Defined.

(** X16.  The fetcher does not check that [items] is an array: when the
    upstream answers with success and a JSON body whose [items] field is
    truthy but not an array (a string, a number, an object), the fetcher
    returns it, the rendering throws a [TypeError], and the handler answers
    500 with the fixed error body and logs the [TypeError]. *)
Theorem handler_500_when_items_not_array
  {Req : Type} (h : Host) (req : Req) (res : Res)
  (rq : request) (resp : response) (data : value) :
  fetchRequest h = Normal rq -> fetch h rq = Normal resp ->
  ok resp = true -> json resp = Some data -> nullish data = false ->
  truthy (get data "items") = true -> is_array (get data "items") = false ->
  fetchWebflowPosts h = Normal (get data "items")
  /\ (exists r,
        res_sent (handler h req res) = (res_sent res ++ [r])%list
        /\ sent_status r = 500%Z /\ sent_body r = Json errorBody)
  /\ res_console (handler h req res) = (res_console res ++ [TypeError])%list.
Proof.
  intros Hrq Hresp Hok Hjson Hdata Htruthy Harr.
  assert (Hfetch : fetchWebflowPosts h = Normal (get data "items")).
  { rewrite (fetchWebflowPosts_ok h rq resp data Hrq Hresp Hok Hjson Hdata).
    unfold or_else. now rewrite Htruthy. }
  assert (Hfeed : feed h = Throw TypeError).
  { unfold feed. rewrite Hfetch. cbn [bind]. now apply generateRSS_not_array. }
  split; [exact Hfetch|]. split.
  - eexists. split; [apply handler_sent|]. now rewrite Hfeed.
  - unfold handler. now rewrite Hfeed.
Qed.

Lemma handler_500_when_items_not_array_witness :
  res_console (handler (sample_host (Normal items_is_text)) tt fresh_res) = [TypeError].
Proof.
  apply (proj2 (proj2 (handler_500_when_items_not_array
                  (sample_host (Normal items_is_text)) tt fresh_res
                  sample_request items_is_text (VObj [("items", VStr "none")])
                  eq_refl eq_refl eq_refl eq_refl eq_refl eq_refl eq_refl))).
Defined.

(** X17.  When the upstream answers with success and an [items] array of
    records as the CMS delivers them (objects whose [fieldData] holds
    strings only), the handler answers 200 with a document that carries
    one item per record, in the order of the array, and logs nothing. *)
Theorem handler_200_on_plain_records
  {Req : Type} (h : Host) (req : Req) (res : Res)
  (rq : request) (resp : response) (data : value) (posts : list value) :
  fetchRequest h = Normal rq -> fetch h rq = Normal resp ->
  ok resp = true -> json resp = Some data -> nullish data = false ->
  get data "items" = VArr posts ->
  Forall (fun post => plain_record post = true) posts ->
  exists items r,
    Forall2 (fun post item => renderItem h (clock h) post = Normal item) posts items
    /\ res_sent (handler h req res) = (res_sent res ++ [r])%list
    /\ sent_status r = 200%Z
    /\ sent_body r
       = Text (channelHead h (clock h) (escape_each (SITE_NAME h))
                           (escape_each (SITE_DESCRIPTION h))
               ++ String.concat EmptyString items ++ channelTail)
    /\ res_console (handler h req res) = res_console res.
Proof.
  intros Hrq Hresp Hok Hjson Hdata Hitems Hplain.
  destruct (generateRSS_plain_records h posts Hplain) as (items & HF & Hdoc).
  assert (Hfeed : feed h = Normal (channelHead h (clock h) (escape_each (SITE_NAME h))
                                               (escape_each (SITE_DESCRIPTION h))
                                   ++ String.concat EmptyString items ++ channelTail)).
  { unfold feed. rewrite (fetchWebflowPosts_ok h rq resp data Hrq Hresp Hok Hjson Hdata).
    rewrite Hitems. cbn [or_else truthy bind]. exact Hdoc. }
  exists items. eexists. split; [exact HF|]. split; [apply handler_sent|].
  rewrite Hfeed. repeat split. unfold handler. now rewrite Hfeed.
Qed.

Lemma handler_200_on_plain_records_witness :
  exists items r,
    Forall2 (fun post item =>
               renderItem (sample_host (Normal one_plain_item))
                          (clock (sample_host (Normal one_plain_item))) post
               = Normal item) [sample_post] items
    /\ res_sent (handler (sample_host (Normal one_plain_item)) tt fresh_res)
       = ([] ++ [r])%list
    /\ sent_status r = 200%Z
    /\ sent_body r
       = Text (channelHead (sample_host (Normal one_plain_item))
                 (clock (sample_host (Normal one_plain_item)))
                 (escape_each (SITE_NAME (sample_host (Normal one_plain_item))))
                 (escape_each (SITE_DESCRIPTION (sample_host (Normal one_plain_item))))
               ++ String.concat EmptyString items ++ channelTail)
    /\ res_console (handler (sample_host (Normal one_plain_item)) tt fresh_res) = [].
Proof.
  apply (handler_200_on_plain_records
           (sample_host (Normal one_plain_item)) tt fresh_res
           sample_request one_plain_item (VObj [("items", VArr [sample_post])])
           [sample_post] eq_refl eq_refl eq_refl eq_refl eq_refl eq_refl).
  repeat constructor.
Defined.

(** X18.  A failure of the upstream is logged, not shown: when the
    upstream status is not a success the handler passes to [console.error]
    the error whose message holds the status and the reason, and when the
    request itself fails it passes the error of [fetch]; in both cases the
    response is 500 with the fixed body, which depends on neither. *)
Theorem handler_logs_upstream_failure
  {Req : Type} (h : Host) (req : Req) (res : Res) (rq : request) :
  fetchRequest h = Normal rq ->
  (forall resp,
     fetch h rq = Normal resp -> ok resp = false ->
     res_console (handler h req res)
     = (res_console res
        ++ [Error ("Webflow API error: " ++ num_to_string (status resp)
                   ++ " " ++ statusText resp)])%list)
  /\ (forall e,
        fetch h rq = Throw e ->
        res_console (handler h req res) = (res_console res ++ [e])%list)
  /\ (forall e,
        feed h = Throw e ->
        exists r,
          res_sent (handler h req res) = (res_sent res ++ [r])%list
          /\ sent_status r = 500%Z
          /\ sent_body r = Json (VObj [("error", VStr "Failed to generate RSS feed")])).
Proof.
  intros Hrq. repeat split.
  - intros resp Hresp Hok. unfold handler, feed, fetchWebflowPosts.
    rewrite Hrq. cbn [bind]. rewrite Hresp. cbn [bind]. now rewrite Hok.
  - intros e He. unfold handler, feed, fetchWebflowPosts.
    rewrite Hrq. cbn [bind]. now rewrite He.
  - intros e He. eexists. split; [apply handler_sent|]. now rewrite He.
Qed.

Lemma handler_logs_upstream_failure_witness :
  res_console (handler (sample_host (Normal forbidden)) tt fresh_res)
  = [Error "Webflow API error: 403 Forbidden"].
Proof.
  apply (proj1 (handler_logs_upstream_failure
                  (sample_host (Normal forbidden)) tt fresh_res sample_request
                  eq_refl) forbidden); reflexivity.
Defined.

(** X19.  The local test function never lets an error escape and renders
    at most three posts: once the fetcher has returned an array it logs
    the number of all the posts, then either the feed of the first three
    posts or the failure of rendering them.  A record after the third is
    not rendered, so it cannot make the test fail; and when the fetcher
    throws, the failure is the only thing logged. *)
Theorem testRssFeed_renders_first_three (h : Host) :
  (forall posts,
     fetchWebflowPosts h = Normal (VArr posts) ->
     testRssFeed h
     = [ConsoleLog ("Found " ++ num_to_string (Z.of_nat (List.length posts)) ++ " posts");
        match generateRSS h (VArr (firstn 3 posts)) with
        | Normal rss => ConsoleLog rss
        | Throw e => ConsoleError "Test failed:" e
        end])
  /\ (forall posts,
        fetchWebflowPosts h = Normal (VArr posts) ->
        Forall (fun post => plain_record post = true) (firstn 3 posts) ->
        exists items,
          List.length items = Nat.min 3 (List.length posts)
          /\ testRssFeed h
             = [ConsoleLog ("Found " ++ num_to_string (Z.of_nat (List.length posts))
                            ++ " posts");
                ConsoleLog (channelHead h (clock h) (escape_each (SITE_NAME h))
                                        (escape_each (SITE_DESCRIPTION h))
                            ++ String.concat EmptyString items ++ channelTail)])
  /\ (forall e,
        fetchWebflowPosts h = Throw e ->
        testRssFeed h = [ConsoleError "Test failed:" e]).
Proof.
  assert (H1 : forall posts,
             fetchWebflowPosts h = Normal (VArr posts) ->
             testRssFeed h
             = [ConsoleLog ("Found " ++ num_to_string (Z.of_nat (List.length posts))
                            ++ " posts");
                match generateRSS h (VArr (firstn 3 posts)) with
                | Normal rss => ConsoleLog rss
                | Throw e => ConsoleError "Test failed:" e
                end]).
  { intros posts Hfetch. unfold testRssFeed. rewrite Hfetch.
    unfold foundLine, testFeed.
    cbn [get_dot get String.eqb Ascii.eqb Bool.eqb bind ToString call_slice_0_3].
    now destruct (generateRSS h (VArr (firstn 3 posts))). }
  split; [exact H1|]. split.
  - intros posts Hfetch Hplain. rewrite (H1 posts Hfetch).
    destruct (generateRSS_plain_records h _ Hplain) as (items & HF & ->).
    exists items. split; [|reflexivity].
    rewrite <- (Forall2_length HF). apply length_firstn.
  - intros e He. unfold testRssFeed. now rewrite He.
Qed.

Lemma testRssFeed_renders_first_three_witness :
  testRssFeed (sample_host (Normal four_items))
  = [ConsoleLog "Found 4 posts";
     match generateRSS (sample_host (Normal four_items))
             (VArr [sample_post; sample_post; sample_post]) with
     | Normal rss => ConsoleLog rss
     | Throw e => ConsoleError "Test failed:" e
     end].
Proof.
  apply (proj1 (testRssFeed_renders_first_three (sample_host (Normal four_items)))
           [sample_post; sample_post; sample_post; numeric_content_post]).
  reflexivity.
Defined.
